(** * TinyG2 controller: the priority dispatch loop and the command dispatcher

    A shallow embedding of [src/TinyG2/controller.cpp].  The controller is a
    single-threaded sweep over a fixed list of continuation tasks
    ([_controller_HSM]); each task either lets the sweep go on or vetoes the
    rest of it by returning [STAT_EAGAIN].  The last but one task,
    [_command_dispatch], runs the connection state machine and routes an
    input line to one of the parsers by its first character.

    Functions of other modules (planner, canonical machine, xio, parsers,
    reports, hardware) are collaborators: the controller only calls them.
    They are modelled as one handler acting on an abstract external state,
    and every call made is appended to a log with its arguments, so that
    which collaborator is called, with what, and which is never called are
    statements about the log.

    Modelling conventions.  A collaborator changes the external state and
    whatever it is handed by pointer; it does not write [cs] or
    [cfg.comm_mode] behind the controller's back.  Execution is sequential:
    interrupts are not modelled, but a query may answer differently each
    time it is asked, since every call goes through the external state.
    The loop never returns, so it is observed for a given number of
    iterations. *)

From Stdlib Require Import List Arith ZArith Bool Ascii String Lia.
Import ListNotations.

Set Implicit Arguments.

(* ===================================================================== *)
(** ** Status codes, modes and states *)

(** Modelled from the spec: [stat_t] and its codes are declared in
    tinyg2.h, which is not among the sources.  A poll's outcome is Done
    ([STAT_OK]), Blocked ([STAT_EAGAIN]) or NoOp ([STAT_NOOP]); any other
    code lets the loop proceed like Done and is kept with its number. *)
Inductive stat_t : Type :=
| STAT_OK
| STAT_EAGAIN
| STAT_NOOP
| STAT_CODE (n : Z).

Definition stat_eqb (a b : stat_t) : bool :=
  match a, b with
  | STAT_OK, STAT_OK => true
  | STAT_EAGAIN, STAT_EAGAIN => true
  | STAT_NOOP, STAT_NOOP => true
  | STAT_CODE n, STAT_CODE m => Z.eqb n m
  | _, _ => false
  end.

(** Modelled from the spec: the values of [cfg.comm_mode] are declared in
    config.h, which is not among the sources.  The response mode is sticky
    and is either text or JSON. *)
Inductive comm_mode_t : Type :=
| TEXT_MODE
| JSON_MODE.

Definition comm_mode_eqb (a b : comm_mode_t) : bool :=
  match a, b with
  | TEXT_MODE, TEXT_MODE => true
  | JSON_MODE, JSON_MODE => true
  | _, _ => false
  end.

(** Modelled from the spec: the enumeration behind [cs.controller_state]
    is declared in controller.h, which is not among the sources.  The
    connection phase is NotConnected, Startup or Ready; the dispatcher has
    a final [else] for any other value of the field, kept here with its
    number. *)
Inductive controller_state_t : Type :=
| CONTROLLER_NOT_CONNECTED
| CONTROLLER_STARTUP
| CONTROLLER_READY
| CONTROLLER_UNNAMED (n : Z).

(* ===================================================================== *)
(** ** Character buffers and the C string functions used *)

(** A [char] array is the list of its bytes; its length is its capacity.
    A store that runs past the capacity is kept in the list, so an
    overrun shows as an array longer than it was declared.  Where the
    excess bytes land in memory (the member declared after the array) is
    outside the model: the layout of [cs] is not in the sources. *)
Definition buffer := list ascii.

Definition NUL : ascii := "000"%char.
Definition dquote : ascii := "034"%char.
Definition newline : ascii := "010"%char.

(** The C string held in an array: the bytes before the first NUL. *)
Fixpoint cstr (b : buffer) : list ascii :=
  match b with
  | [] => []
  | c :: rest => if Ascii.eqb c NUL then [] else c :: cstr rest
  end.

Definition strlen (b : buffer) : nat := List.length (cstr b).

(** Bytes [0 .. length bytes - 1] of [dst] are overwritten. *)
Definition store (dst : buffer) (bytes : list ascii) : buffer :=
  bytes ++ skipn (List.length bytes) dst.

(** [strncpy(dst, src, n)]: exactly [n] bytes are written, the string of
    [src] cut at [n] and padded with NUL up to [n]; no terminator is added
    when the string has [n] bytes or more. *)
Definition strncpy (dst src : buffer) (n : nat) : buffer :=
  store dst (firstn n (cstr src ++ repeat NUL n)).

(** The format string of line 232: an opening brace, the key gc in double
    quotes, a colon, the argument in double quotes, a closing brace and a
    newline. *)
Definition gc_prefix : list ascii :=
  ["{"%char; dquote; "g"%char; "c"%char; dquote; ":"%char; dquote].
Definition gc_suffix : list ascii := [dquote; "}"%char; newline].

Definition gc_wrap (s : list ascii) : list ascii := gc_prefix ++ s ++ gc_suffix.

(** [sprintf] with that format: the formatted text and its terminating NUL
    are stored from [dst[0]] on, with no bound. *)
Definition sprintf_gc (dst src : buffer) : buffer :=
  store dst (gc_wrap (cstr src) ++ [NUL]).

(** [toupper] in the C locale. *)
Definition toupper (c : ascii) : ascii :=
  let n := nat_of_ascii c in
  if (97 <=? n) && (n <=? 122) then ascii_of_nat (n - 32) else c.

(* ===================================================================== *)
(** ** Collaborators *)

(** The functions of other modules that the controller calls, with the
    arguments it passes.  A [char *] argument is the array it points to. *)
Inductive call : Type :=
| hw_hard_reset_handler
| poll_switches
| cm_feedhold_sequencing_callback
| mp_plan_hold_callback
| st_motor_power_callback
| sr_status_report_callback
| qr_queue_report_callback
| cm_arc_callback
| cm_homing_callback
| SerialUSB_isConnected
| read_line (buf : buffer) (index : nat) (size : nat)
| cm_request_queue_flush
| rpt_print_system_ready_message
| text_response (status : stat_t) (buf : buffer)
| help_general
| text_parser (str : buffer)
| json_parser (str : buffer)
| gc_gcode_parser (block : buffer)
| cm_get_machine_state
| SysTickTimer_getValue
| IndicatorLed_toggle
| mp_get_planner_buffers_available.

(** Modelled from the spec: the prototypes are in headers that are not
    among the sources; these are the collaborator contracts of the
    specification's interface table.  [read_line] fills the array and moves
    the index it is handed by reference; the three parsers are handed the
    line as [char *] and may rewrite it in place, so they give the array
    back as well. *)
Definition reply (c : call) : Type :=
  match c with
  | hw_hard_reset_handler | poll_switches
  | cm_feedhold_sequencing_callback | mp_plan_hold_callback
  | st_motor_power_callback | sr_status_report_callback
  | qr_queue_report_callback | cm_arc_callback | cm_homing_callback => stat_t
  | SerialUSB_isConnected => bool
  | read_line _ _ _ => (stat_t * buffer * nat)%type
  | cm_request_queue_flush | rpt_print_system_ready_message
  | text_response _ _ | help_general | IndicatorLed_toggle => unit
  | text_parser _ | gc_gcode_parser _ => (stat_t * buffer)%type
  | json_parser _ => buffer
  | cm_get_machine_state | SysTickTimer_getValue
  | mp_get_planner_buffers_available => Z
  end.

(** The collaborators over an external state [E]: a call reads and may
    change [E].  Two reads of the same query need not agree. *)
Definition handler (E : Type) : Type := forall c : call, E -> reply c * E.

(** Constants of headers that are not part of this file's sources. *)
Record platform : Type := {
  INPUT_BUFFER_LEN : nat;          (* sizeof(cs.in_buf) *)
  SAVED_BUFFER_LEN : nat;          (* sizeof(cs.saved_buf) *)
  LED_ALARM_TIMER : Z;
  LED_NORMAL_TIMER : Z;
  PLANNER_BUFFER_HEADROOM : Z;
  MACHINE_ALARM : Z;
  MAGICNUM : Z
}.

(* ===================================================================== *)
(** ** Controller state *)

(** Modelled from the spec: [controller_t] is declared in controller.h,
    which is not among the sources.  These are the fields of [cs] that
    this file reads or writes; the three version fields written once by
    [controller_init] are left out. *)
Record controller_t : Type := {
  magic_start : Z;
  magic_end : Z;
  linelen : nat;
  controller_state : controller_state_t;
  in_buf : buffer;
  out_buf : buffer;
  saved_buf : buffer;
  led_timer : Z
}.

(** Everything a task can read or write: [cs], [cfg.comm_mode], the
    collaborators' state, and the log of calls made so far. *)
Record world (E : Type) : Type := {
  cs : controller_t;
  comm_mode : comm_mode_t;
  ext : E;
  log : list call
}.

Definition with_linelen (n : nat) (c : controller_t) : controller_t :=
  {| magic_start := magic_start c; magic_end := magic_end c; linelen := n;
     controller_state := controller_state c; in_buf := in_buf c;
     out_buf := out_buf c; saved_buf := saved_buf c; led_timer := led_timer c |}.

Definition with_controller_state (s : controller_state_t) (c : controller_t)
  : controller_t :=
  {| magic_start := magic_start c; magic_end := magic_end c; linelen := linelen c;
     controller_state := s; in_buf := in_buf c;
     out_buf := out_buf c; saved_buf := saved_buf c; led_timer := led_timer c |}.

Definition with_in_buf (b : buffer) (c : controller_t) : controller_t :=
  {| magic_start := magic_start c; magic_end := magic_end c; linelen := linelen c;
     controller_state := controller_state c; in_buf := b;
     out_buf := out_buf c; saved_buf := saved_buf c; led_timer := led_timer c |}.

Definition with_out_buf (b : buffer) (c : controller_t) : controller_t :=
  {| magic_start := magic_start c; magic_end := magic_end c; linelen := linelen c;
     controller_state := controller_state c; in_buf := in_buf c;
     out_buf := b; saved_buf := saved_buf c; led_timer := led_timer c |}.

Definition with_saved_buf (b : buffer) (c : controller_t) : controller_t :=
  {| magic_start := magic_start c; magic_end := magic_end c; linelen := linelen c;
     controller_state := controller_state c; in_buf := in_buf c;
     out_buf := out_buf c; saved_buf := b; led_timer := led_timer c |}.

Definition with_led_timer (t : Z) (c : controller_t) : controller_t :=
  {| magic_start := magic_start c; magic_end := magic_end c; linelen := linelen c;
     controller_state := controller_state c; in_buf := in_buf c;
     out_buf := out_buf c; saved_buf := saved_buf c; led_timer := t |}.

Definition with_magic (m : Z) (c : controller_t) : controller_t :=
  {| magic_start := m; magic_end := m; linelen := linelen c;
     controller_state := controller_state c; in_buf := in_buf c;
     out_buf := out_buf c; saved_buf := saved_buf c; led_timer := led_timer c |}.

(** [uint32_t] arithmetic of the LED deadline. *)
Definition wrap32 (z : Z) : Z := (z mod 2 ^ 32)%Z.

(* ===================================================================== *)
(** ** The state monad of the controller *)

Definition M (E A : Type) : Type := world E -> A * world E.

Definition ret {E A} (a : A) : M E A := fun w => (a, w).

Definition bind {E A B} (m : M E A) (k : A -> M E B) : M E B :=
  fun w => let '(a, w1) := m w in k a w1.

Declare Scope ctl_scope.
Delimit Scope ctl_scope with ctl.
Notation "x <- m ;; k" := (bind m (fun x => k))
  (at level 61, m at next level, right associativity) : ctl_scope.
Notation "m ;; k" := (bind m (fun _ => k))
  (at level 61, right associativity) : ctl_scope.
Local Open Scope ctl_scope.

Definition get_cs {E} : M E controller_t := fun w => (cs w, w).

Definition modify_cs {E} (f : controller_t -> controller_t) : M E unit :=
  fun w => (tt, {| cs := f (cs w); comm_mode := comm_mode w;
                   ext := ext w; log := log w |}).

Definition get_comm_mode {E} : M E comm_mode_t := fun w => (comm_mode w, w).

Definition set_comm_mode {E} (m : comm_mode_t) : M E unit :=
  fun w => (tt, {| cs := cs w; comm_mode := m; ext := ext w; log := log w |}).

(** The dispatch table's entries, named after the function each one calls. *)
Inductive task : Type :=
| T_hw_hard_reset_handler
| T_alarm_idler
| T_poll_switches
| T_limit_switch_handler
| T_cm_feedhold_sequencing_callback
| T_mp_plan_hold_callback
| T_st_motor_power_callback
| T_sr_status_report_callback
| T_qr_queue_report_callback
| T_cm_arc_callback
| T_cm_homing_callback
| T_sync_to_planner
| T_command_dispatch
| T_normal_idler.

(** What one sweep did: the entries invoked, in order, each with the
    status it returned. *)
Definition sweep_trace := list (task * stat_t).

Section Controller.

Variable P : platform.
Variable E : Type.
Variable H : handler E.

(** Calling a collaborator: it acts on the external state and the call is
    appended to the log. *)
Definition invoke (c : call) : M E (reply c) :=
  fun w => let '(r, e) := H c (ext w) in
           (r, {| cs := cs w; comm_mode := comm_mode w;
                  ext := e; log := log w ++ [c] |}).

(* --------------------------------------------------------------------- *)
(** *** controller_init (lines 81-99) *)

Definition controller_init : M E unit :=
  modify_cs (with_magic (MAGICNUM P)) ;;
  modify_cs (with_linelen 0) ;;
  modify_cs (with_controller_state CONTROLLER_NOT_CONNECTED).

(* --------------------------------------------------------------------- *)
(** *** Local utilities (lines 253-322) *)

Definition _alarm_idler : M E stat_t :=
  ms <- invoke cm_get_machine_state ;;
  if negb (Z.eqb ms (MACHINE_ALARM P)) then ret STAT_OK
  else
    now <- invoke SysTickTimer_getValue ;;
    c <- get_cs ;;
    (if Z.ltb (led_timer c) now then
       now' <- invoke SysTickTimer_getValue ;;
       modify_cs (with_led_timer (wrap32 (now' + LED_ALARM_TIMER P))) ;;
       invoke IndicatorLed_toggle
     else ret tt) ;;
    ret STAT_EAGAIN.

Definition _normal_idler : M E stat_t :=
  now <- invoke SysTickTimer_getValue ;;
  c <- get_cs ;;
  (if Z.ltb (led_timer c) now then
     now' <- invoke SysTickTimer_getValue ;;
     modify_cs (with_led_timer (wrap32 (now' + LED_NORMAL_TIMER P))) ;;
     invoke IndicatorLed_toggle
   else ret tt) ;;
  ret STAT_OK.

Definition _sync_to_planner : M E stat_t :=
  n <- invoke mp_get_planner_buffers_available ;;
  if Z.ltb n (PLANNER_BUFFER_HEADROOM P) then ret STAT_EAGAIN
  else ret STAT_OK.

(** Its body is commented out in the source; only the return is left. *)
Definition _limit_switch_handler : M E stat_t := ret STAT_OK.

(* --------------------------------------------------------------------- *)
(** *** _command_dispatch (lines 174-240) *)

(** Lines 229-237, the [default] case of the switch. *)
Definition dispatch_gcode : M E unit :=
  mode <- get_comm_mode ;;
  if comm_mode_eqb mode JSON_MODE then
    c <- get_cs ;;
    modify_cs (with_out_buf
                 (strncpy (out_buf c) (in_buf c) (INPUT_BUFFER_LEN P - 8))) ;;
    c <- get_cs ;;
    modify_cs (with_in_buf (sprintf_gc (in_buf c) (out_buf c))) ;;
    c <- get_cs ;;
    b <- invoke (json_parser (in_buf c)) ;;
    modify_cs (with_in_buf b)
  else
    c <- get_cs ;;
    r <- invoke (gc_gcode_parser (in_buf c)) ;;
    modify_cs (with_in_buf (snd r)) ;;
    c <- get_cs ;;
    invoke (text_response (fst r) (saved_buf c)).

(** Lines 202-203: save the input buffer for reporting and clear the
    cursor.  No collaborator is called here. *)
Definition save_and_clear : M E unit :=
  c <- get_cs ;;
  modify_cs (with_saved_buf
               (strncpy (saved_buf c) (in_buf c) (SAVED_BUFFER_LEN P - 1))) ;;
  modify_cs (with_linelen 0).

(** Lines 205-238: the switch on the case-folded first byte. *)
Definition protocol_switch : M E unit :=
  c <- get_cs ;;
  let first := toupper (hd NUL (in_buf c)) in
  if Ascii.eqb first NUL then
    mode <- get_comm_mode ;;
    if negb (comm_mode_eqb mode JSON_MODE)
    then invoke (text_response STAT_OK (saved_buf c))
    else ret tt
  else if Ascii.eqb first "H" then
    set_comm_mode TEXT_MODE ;;
    invoke help_general ;;
    invoke (text_response STAT_OK (in_buf c))
  else if Ascii.eqb first "$" || Ascii.eqb first "?" then
    set_comm_mode TEXT_MODE ;;
    r <- invoke (text_parser (in_buf c)) ;;
    modify_cs (with_in_buf (snd r)) ;;
    c <- get_cs ;;
    invoke (text_response (fst r) (saved_buf c))
  else if Ascii.eqb first "{" then
    set_comm_mode JSON_MODE ;;
    b <- invoke (json_parser (in_buf c)) ;;
    modify_cs (with_in_buf b)
  else dispatch_gcode.

(** Lines 202-239: save the line and clear the cursor, then switch on the
    first byte, then return. *)
Definition execute_line : M E stat_t :=
  save_and_clear ;;
  protocol_switch ;;
  ret STAT_OK.

Definition _command_dispatch : M E stat_t :=
  connected <- invoke SerialUSB_isConnected ;;
  (if negb connected
   then modify_cs (with_controller_state CONTROLLER_NOT_CONNECTED)
   else ret tt) ;;
  c <- get_cs ;;
  match controller_state c with
  | CONTROLLER_READY =>
      r <- invoke (read_line (in_buf c) (linelen c) (INPUT_BUFFER_LEN P)) ;;
      modify_cs (with_in_buf (snd (fst r))) ;;
      modify_cs (with_linelen (snd r)) ;;
      if negb (stat_eqb (fst (fst r)) STAT_OK) then ret STAT_OK
      else execute_line
  | CONTROLLER_NOT_CONNECTED =>
      connected <- invoke SerialUSB_isConnected ;;
      if negb connected then ret STAT_OK
      else
        invoke cm_request_queue_flush ;;
        invoke rpt_print_system_ready_message ;;
        modify_cs (with_controller_state CONTROLLER_STARTUP) ;;
        execute_line
  | CONTROLLER_STARTUP =>
      modify_cs (with_controller_state CONTROLLER_READY) ;;
      execute_line
  | CONTROLLER_UNNAMED _ => ret STAT_OK
  end.

(* --------------------------------------------------------------------- *)
(** *** _controller_HSM and controller_run (lines 120-163) *)

Definition run_task (t : task) : M E stat_t :=
  match t with
  | T_hw_hard_reset_handler => invoke hw_hard_reset_handler
  | T_alarm_idler => _alarm_idler
  | T_poll_switches => invoke poll_switches
  | T_limit_switch_handler => _limit_switch_handler
  | T_cm_feedhold_sequencing_callback => invoke cm_feedhold_sequencing_callback
  | T_mp_plan_hold_callback => invoke mp_plan_hold_callback
  | T_st_motor_power_callback => invoke st_motor_power_callback
  | T_sr_status_report_callback => invoke sr_status_report_callback
  | T_qr_queue_report_callback => invoke qr_queue_report_callback
  | T_cm_arc_callback => invoke cm_arc_callback
  | T_cm_homing_callback => invoke cm_homing_callback
  | T_sync_to_planner => _sync_to_planner
  | T_command_dispatch => _command_dispatch
  | T_normal_idler => _normal_idler
  end.

(** A sweep: from a world to the world it leaves and what it did. *)
Definition sweep := world E -> world E * sweep_trace.

Definition sweep_end : sweep := fun w => (w, []).

(** [#define DISPATCH(func) if (func == STAT_EAGAIN) return;] followed by
    the rest of the function body. *)
Definition DISPATCH (t : task) (rest : sweep) : sweep :=
  fun w =>
    let '(r, w1) := run_task t w in
    if stat_eqb r STAT_EAGAIN then (w1, [(t, r)])
    else let '(w2, tr) := rest w1 in (w2, (t, r) :: tr).

Definition _controller_HSM : sweep :=
  DISPATCH T_hw_hard_reset_handler (
  DISPATCH T_alarm_idler (
  DISPATCH T_poll_switches (
  DISPATCH T_limit_switch_handler (
  DISPATCH T_cm_feedhold_sequencing_callback (
  DISPATCH T_mp_plan_hold_callback (
  DISPATCH T_st_motor_power_callback (
  DISPATCH T_sr_status_report_callback (
  DISPATCH T_qr_queue_report_callback (
  DISPATCH T_cm_arc_callback (
  DISPATCH T_cm_homing_callback (
  DISPATCH T_sync_to_planner (
  DISPATCH T_command_dispatch (
  DISPATCH T_normal_idler sweep_end))))))))))))).

(** [while (true) _controller_HSM();] observed for a number of iterations:
    the world after them and the trace of each, first iteration first. *)
Fixpoint controller_run (ticks : nat) (w : world E)
  : world E * list sweep_trace :=
  match ticks with
  | O => (w, [])
  | S n =>
      let '(w1, tr) := _controller_HSM w in
      let '(w2, trs) := controller_run n w1 in
      (w2, tr :: trs)
  end.

End Controller.

Arguments invoke {E} H c w.
Arguments controller_init P {E} w.
Arguments _alarm_idler P {E} H w.
Arguments _normal_idler P {E} H w.
Arguments _sync_to_planner P {E} H w.
Arguments _limit_switch_handler {E} w.
Arguments dispatch_gcode P {E} H w.
Arguments save_and_clear P {E} w.
Arguments protocol_switch P {E} H w.
Arguments execute_line P {E} H w.
Arguments _command_dispatch P {E} H w.
Arguments run_task P {E} H t w.
Arguments DISPATCH P {E} H t rest w.
Arguments sweep_end {E} w.
Arguments _controller_HSM P {E} H w.
Arguments controller_run P {E} H ticks w.

(** The table that [_controller_HSM] spells out, top to bottom. *)
Definition dispatch_table : list task :=
  [ T_hw_hard_reset_handler; T_alarm_idler; T_poll_switches;
    T_limit_switch_handler; T_cm_feedhold_sequencing_callback;
    T_mp_plan_hold_callback; T_st_motor_power_callback;
    T_sr_status_report_callback; T_qr_queue_report_callback;
    T_cm_arc_callback; T_cm_homing_callback; T_sync_to_planner;
    T_command_dispatch; T_normal_idler ].

(** A sweep over an arbitrary table, entry by entry. *)
Fixpoint sweep_table (P : platform) {E} (H : handler E) (tbl : list task)
  : sweep E :=
  match tbl with
  | [] => sweep_end
  | t :: rest => DISPATCH P H t (sweep_table P H rest)
  end.

(** Entry [t] was invoked in the sweep / returned [r] in the sweep. *)
Definition returned (t : task) (r : stat_t) (tr : sweep_trace) : Prop :=
  In (t, r) tr.
Definition invoked (t : task) (tr : sweep_trace) : Prop :=
  exists r, returned t r tr.

(** The entry at position [k] of a table. *)
Definition entry_at (tbl : list task) (k : nat) : option task := nth_error tbl k.

(* ===================================================================== *)
(** ** A simulated board

    Concrete collaborators, used to run the controller on examples. *)
Module Sim.

Record board : Type := {
  usb : list bool;            (* successive reports of isConnected;
                                 the last one repeats, none means false *)
  machine_state : Z;
  planner_free : Z;
  clock : Z;
  pending : list (list ascii);  (* complete lines waiting to be read *)
  homing : bool;              (* a homing cycle is under way *)
  led : bool
}.

Definition plat : platform :=
  {| INPUT_BUFFER_LEN := 255; SAVED_BUFFER_LEN := 100;
     LED_ALARM_TIMER := 100; LED_NORMAL_TIMER := 1000;
     PLANNER_BUFFER_HEADROOM := 4; MACHINE_ALARM := 2; MAGICNUM := 4847 |}.

Definition pop_usb (b : board) : bool * board :=
  match usb b with
  | [] => (false, b)
  | [x] => (x, b)
  | x :: rest =>
      (x, {| usb := rest; machine_state := machine_state b;
             planner_free := planner_free b; clock := clock b;
             pending := pending b; homing := homing b; led := led b |})
  end.

Definition pop_line (buf : buffer) (index : nat) (b : board)
  : (stat_t * buffer * nat) * board :=
  match pending b with
  | [] => ((STAT_EAGAIN, buf, index), b)
  | l :: rest =>
      ((STAT_OK, store buf (l ++ [NUL]), List.length l),
       {| usb := usb b; machine_state := machine_state b;
          planner_free := planner_free b; clock := clock b;
          pending := rest; homing := homing b; led := led b |})
  end.

Definition tick (b : board) : Z * board :=
  (clock b, {| usb := usb b; machine_state := machine_state b;
               planner_free := planner_free b; clock := clock b + 1;
               pending := pending b; homing := homing b; led := led b |}).

Definition toggle (b : board) : unit * board :=
  (tt, {| usb := usb b; machine_state := machine_state b;
          planner_free := planner_free b; clock := clock b;
          pending := pending b; homing := homing b; led := negb (led b) |}).

Definition run : handler board :=
  fun c =>
    match c as c0 return board -> reply c0 * board with
    | hw_hard_reset_handler => fun b => (STAT_OK, b)
    | poll_switches => fun b => (STAT_OK, b)
    | cm_feedhold_sequencing_callback => fun b => (STAT_NOOP, b)
    | mp_plan_hold_callback => fun b => (STAT_NOOP, b)
    | st_motor_power_callback => fun b => (STAT_OK, b)
    | sr_status_report_callback => fun b => (STAT_OK, b)
    | qr_queue_report_callback => fun b => (STAT_OK, b)
    | cm_arc_callback => fun b => (STAT_NOOP, b)
    | cm_homing_callback =>
        fun b => (if homing b then STAT_EAGAIN else STAT_NOOP, b)
    | SerialUSB_isConnected => pop_usb
    | read_line buf index _ => pop_line buf index
    | cm_request_queue_flush => fun b => (tt, b)
    | rpt_print_system_ready_message => fun b => (tt, b)
    | text_response _ _ => fun b => (tt, b)
    | help_general => fun b => (tt, b)
    | text_parser s => fun b => ((STAT_OK, s), b)
    | json_parser s => fun b => (s, b)
    | gc_gcode_parser s => fun b => ((STAT_OK, s), b)
    | cm_get_machine_state => fun b => (machine_state b, b)
    | SysTickTimer_getValue => tick
    | IndicatorLed_toggle => toggle
    | mp_get_planner_buffers_available => fun b => (planner_free b, b)
    end.

(** A board that is plugged in, idle, with [lines] waiting. *)
Definition board0 (connected : list bool) (lines : list string) : board :=
  {| usb := connected; machine_state := 1; planner_free := 28; clock := 0;
     pending := map list_ascii_of_string lines; homing := false; led := false |}.

(** Static storage is zeroed before [main]; [controller_init] then runs. *)
Definition cs0 : controller_t :=
  {| magic_start := 0; magic_end := 0; linelen := 0;
     controller_state := CONTROLLER_UNNAMED 0;
     in_buf := repeat NUL 255; out_buf := repeat NUL 512;
     saved_buf := repeat NUL 100; led_timer := 0 |}.

Definition boot (mode : comm_mode_t) (b : board) : world board :=
  snd (controller_init plat
         {| cs := cs0; comm_mode := mode; ext := b; log := [] |}).

(** The world with the controller in a chosen state. *)
Definition in_state (s : controller_state_t) (w : world board) : world board :=
  {| cs := with_controller_state s (cs w); comm_mode := comm_mode w;
     ext := ext w; log := log w |}.

End Sim.

(* ===================================================================== *)
(** ** Vocabulary of the statements *)

(** The world after a collaborator call that answered with state [e]. *)
Definition called {E} (c : call) (e : E) (w : world E) : world E :=
  {| cs := cs w; comm_mode := comm_mode w; ext := e; log := log w ++ [c] |}.

(** The first byte of a line that the switch sends to its [default] case:
    case-folded, it is none of NUL, H, dollar, question mark, brace. *)
Definition is_gcode_first (c : ascii) : Prop :=
  toupper c <> NUL /\ toupper c <> "H"%char /\ toupper c <> "$"%char /\
  toupper c <> "?"%char /\ toupper c <> "{"%char.

(** The connection state after one poll, by the state before it and the
    transport's report. *)
Definition next_state (s : controller_state_t) (connected : bool)
  : controller_state_t :=
  if connected then
    match s with
    | CONTROLLER_NOT_CONNECTED => CONTROLLER_STARTUP
    | CONTROLLER_STARTUP => CONTROLLER_READY
    | CONTROLLER_READY => CONTROLLER_READY
    | CONTROLLER_UNNAMED n => CONTROLLER_UNNAMED n
    end
  else CONTROLLER_NOT_CONNECTED.

(** The transport gives the same report when asked twice in a row from
    external state [e]. *)
Definition steady_report {E} (H : handler E) (e : E) : Prop :=
  fst (H SerialUSB_isConnected (snd (H SerialUSB_isConnected e)))
  = fst (H SerialUSB_isConnected e).

(** The item of the specification's ordering list (numbered 1 to 12) that
    a table entry belongs to: feedhold sequencing and hold planning are
    one item, status and queue reporting are one item. *)
Definition spec_item (t : task) : nat :=
  match t with
  | T_hw_hard_reset_handler => 1
  | T_alarm_idler => 2
  | T_poll_switches => 3
  | T_limit_switch_handler => 4
  | T_cm_feedhold_sequencing_callback => 5
  | T_mp_plan_hold_callback => 5
  | T_st_motor_power_callback => 6
  | T_sr_status_report_callback => 7
  | T_qr_queue_report_callback => 7
  | T_cm_arc_callback => 8
  | T_cm_homing_callback => 9
  | T_sync_to_planner => 10
  | T_command_dispatch => 11
  | T_normal_idler => 12
  end.

(** Adjacent repetitions removed. *)
Fixpoint squeeze (l : list nat) : list nat :=
  match l with
  | [] => []
  | x :: rest =>
      match rest with
      | y :: _ => if Nat.eqb x y then squeeze rest else x :: squeeze rest
      | [] => [x]
      end
  end.

(** The shape of a sweep's trace over a table: entries are taken in table
    order, and the first one to return [STAT_EAGAIN] is the last. *)
Inductive veto_trace : list task -> sweep_trace -> Prop :=
| veto_done : veto_trace [] []
| veto_block : forall t rest, veto_trace (t :: rest) [(t, STAT_EAGAIN)]
| veto_pass : forall t r rest tr,
    r <> STAT_EAGAIN -> veto_trace rest tr ->
    veto_trace (t :: rest) ((t, r) :: tr).

(** A poll that will dispatch an empty line in text mode: the state is
    Ready, the response mode is text, the transport reports a connection
    and [read_line] completes a line whose first byte is NUL. *)
Definition empty_line_poll (P : platform) {E} (H : handler E) (w : world E)
  : Prop :=
  controller_state (cs w) = CONTROLLER_READY /\
  comm_mode w = TEXT_MODE /\
  fst (H SerialUSB_isConnected (ext w)) = true /\
  let r := H (read_line (in_buf (cs w)) (linelen (cs w)) (INPUT_BUFFER_LEN P))
             (snd (H SerialUSB_isConnected (ext w))) in
  fst (fst (fst r)) = STAT_OK /\ hd NUL (snd (fst (fst r))) = NUL.

(** The strings handed to the JSON parser in a log, in order. *)
Fixpoint json_parser_args (l : list call) : list (list ascii) :=
  match l with
  | [] => []
  | json_parser s :: rest => cstr s :: json_parser_args rest
  | _ :: rest => json_parser_args rest
  end.

(** The calls that only the command dispatcher makes. *)
Definition dispatcher_call (c : call) : bool :=
  match c with
  | SerialUSB_isConnected | read_line _ _ _
  | cm_request_queue_flush | rpt_print_system_ready_message
  | text_response _ _ | help_general
  | text_parser _ | json_parser _ | gc_gcode_parser _ => true
  | _ => false
  end.

(** The calls that lines 202-239 make: the parsers, the help screen and
    the response emitter. *)
Definition line_call (c : call) : bool :=
  match c with
  | text_response _ _ | help_general
  | text_parser _ | json_parser _ | gc_gcode_parser _ => true
  | _ => false
  end.

Definition is_read_line (c : call) : bool :=
  match c with read_line _ _ _ => true | _ => false end.
Definition is_flush (c : call) : bool :=
  match c with cm_request_queue_flush => true | _ => false end.
Definition is_ready_message (c : call) : bool :=
  match c with rpt_print_system_ready_message => true | _ => false end.
Definition is_toggle (c : call) : bool :=
  match c with IndicatorLed_toggle => true | _ => false end.

(** How many calls of a kind a stretch of log holds. *)
Definition count (p : call -> bool) (l : list call) : nat :=
  List.length (filter p l).

(** What the command dispatcher owns: the three buffers, the cursor, the
    connection state and the response mode. *)
Definition line_state {E} (w : world E) :=
  (in_buf (cs w), out_buf (cs w), saved_buf (cs w), linelen (cs w),
   controller_state (cs w), comm_mode w).

(** The saved buffer has its declared size and ends in NUL. *)
Definition saved_buf_terminated (P : platform) {E} (w : world E) : Prop :=
  List.length (saved_buf (cs w)) = SAVED_BUFFER_LEN P /\
  nth (SAVED_BUFFER_LEN P - 1) (saved_buf (cs w)) "x"%char = NUL.

(** The wrapping of lines 231-232 stays within the arrays for line [b]:
    the wrapped line and its terminator fit the input buffer, and the
    scratch buffer takes the copy. *)
Definition wrap_fits (P : platform) {E} (w : world E) (b : buffer) : Prop :=
  strlen b + 11 <= INPUT_BUFFER_LEN P /\
  List.length b <= INPUT_BUFFER_LEN P /\
  INPUT_BUFFER_LEN P - 8 <= List.length (out_buf (cs w)).

(** No array handed to the JSON parser in a stretch of log is longer than
    the input buffer.  Line 233 hands over what line 232 has just
    written, so in such a log line 232 never wrote past the end of the
    input buffer. *)
Definition no_overrun (P : platform) (l : list call) : Prop :=
  forallb (fun c => match c with
                    | json_parser arg => List.length arg <=? INPUT_BUFFER_LEN P
                    | _ => true
                    end) l = true.

(** What an entry of the dispatch table adds to the log of calls in one
    poll, given the status it returns.  The limit-switch handler calls
    nothing (its body is commented out in the source). *)
Definition entry_log (t : task) (r : stat_t) (l : list call) : Prop :=
  match t with
  | T_hw_hard_reset_handler => l = [hw_hard_reset_handler]
  | T_alarm_idler =>
      (r = STAT_OK /\ l = [cm_get_machine_state]) \/
      (r = STAT_EAGAIN /\
       (l = [cm_get_machine_state; SysTickTimer_getValue] \/
        l = [cm_get_machine_state; SysTickTimer_getValue;
             SysTickTimer_getValue; IndicatorLed_toggle]))
  | T_poll_switches => l = [poll_switches]
  | T_limit_switch_handler => r = STAT_OK /\ l = []
  | T_cm_feedhold_sequencing_callback => l = [cm_feedhold_sequencing_callback]
  | T_mp_plan_hold_callback => l = [mp_plan_hold_callback]
  | T_st_motor_power_callback => l = [st_motor_power_callback]
  | T_sr_status_report_callback => l = [sr_status_report_callback]
  | T_qr_queue_report_callback => l = [qr_queue_report_callback]
  | T_cm_arc_callback => l = [cm_arc_callback]
  | T_cm_homing_callback => l = [cm_homing_callback]
  | T_sync_to_planner => l = [mp_get_planner_buffers_available]
  | T_command_dispatch =>
      r = STAT_OK /\
      exists d, l = SerialUSB_isConnected :: d /\
                forallb dispatcher_call d = true
  | T_normal_idler =>
      r = STAT_OK /\
      (l = [SysTickTimer_getValue] \/
       l = [SysTickTimer_getValue; SysTickTimer_getValue; IndicatorLed_toggle])
  end.

(** Example lines. *)
Definition line_g1 : list ascii := list_ascii_of_string "g1f400x100".
Definition long_line (n : nat) : list ascii := "g"%char :: repeat "0"%char (n - 1).

(** Example worlds on the simulated board. *)
Module Examples.

Import Sim.

(** Ready and connected, with [lines] waiting to be read. *)
Definition ready (mode : comm_mode_t) (lines : list (list ascii)) : world board :=
  in_state CONTROLLER_READY
    (boot mode {| usb := [true]; machine_state := 1; planner_free := 28;
                  clock := 0; pending := lines; homing := false; led := false |}).



(** Freshly booted, plugged in, idle. *)
Definition idle_world : world board := boot TEXT_MODE (board0 [true] []).

(** Ready, with three bytes of a line received so far and no more input. *)
Definition partial_world : world board :=
  let w := ready TEXT_MODE [] in
  {| cs := with_linelen 3
             (with_in_buf (store (in_buf (cs w)) (list_ascii_of_string "g1x"))
                          (cs w));
     comm_mode := comm_mode w; ext := ext w; log := [] |}.

(** In Startup, with the cable pulled. *)
Definition unplugged_startup : world board :=
  in_state CONTROLLER_STARTUP (boot TEXT_MODE (board0 [false] [])).

(** Ready, with a transport that reports no connection at one read and a
    connection at the next. *)
Definition flapping_ready : world board :=
  in_state CONTROLLER_READY (boot TEXT_MODE (board0 [false; true] [])).

(** In Startup, plugged in. *)
Definition plugged_startup : world board :=
  in_state CONTROLLER_STARTUP (boot TEXT_MODE (board0 [true] [])).

(** The world a session leaves behind: the last line dispatched is still
    in the input buffer, and the controller has fallen back to
    NotConnected; the cable is now plugged in again. *)
Definition replug_world : world board :=
  let w := snd (_command_dispatch plat run (ready TEXT_MODE [line_g1])) in
  {| cs := with_controller_state CONTROLLER_NOT_CONNECTED (cs w);
     comm_mode := comm_mode w; ext := ext w; log := [] |}.

(** Ready with a line waiting, and the planner down to two free buffers. *)
Definition gate_closed_world : world board :=
  in_state CONTROLLER_READY
    (boot TEXT_MODE {| usb := [true]; machine_state := 1; planner_free := 2;
                       clock := 0; pending := [line_g1]; homing := false;
                       led := false |}).

(** Freshly booted and idle, with the clock past the LED deadline. *)
Definition late_world : world board :=
  boot TEXT_MODE {| usb := [true]; machine_state := 1; planner_free := 28;
                    clock := 5; pending := []; homing := false; led := false |}.

(** Freshly booted and in alarm, with the clock past the LED deadline. *)
Definition late_alarmed_world : world board :=
  boot TEXT_MODE {| usb := [true]; machine_state := 2; planner_free := 28;
                    clock := 5; pending := []; homing := false; led := false |}.

(** Ready with a line in the buffer, and the cable pulled. *)
Definition unplugged_ready : world board :=
  let w := in_state CONTROLLER_READY (boot JSON_MODE (board0 [false] [])) in
  {| cs := with_linelen 3
             (with_in_buf (store (in_buf (cs w)) (list_ascii_of_string "g1x"))
                          (cs w));
     comm_mode := comm_mode w; ext := ext w; log := [] |}.

End Examples.

(* ===================================================================== *)
(** ** Basic facts *)

Lemma stat_eqb_eq (a b : stat_t) : stat_eqb a b = true <-> a = b.
Proof.
  destruct a, b; simpl; split; intro Hab;
    try reflexivity; try discriminate; try congruence.
  - apply Z.eqb_eq in Hab. congruence.
  - inversion Hab. apply Z.eqb_refl.
Qed.

Lemma stat_eqb_neq (a b : stat_t) : stat_eqb a b = false <-> a <> b.
Proof.
  rewrite <- stat_eqb_eq. destruct (stat_eqb a b); split; congruence.
Qed.

Section Facts.

Variable P : platform.
Variable E : Type.
Variable H : handler E.

Lemma invoke_run (c : call) (w : world E) :
  invoke H c w = (fst (H c (ext w)), called c (snd (H c (ext w))) w).
Proof. unfold invoke, called. destruct (H c (ext w)); reflexivity. Qed.

Lemma bind_run {A B} (m : M E A) (k : A -> M E B) (w : world E) :
  bind m k w = k (fst (m w)) (snd (m w)).
Proof. unfold bind. destruct (m w); reflexivity. Qed.

Lemma execute_line_status (w : world E) : fst (execute_line P H w) = STAT_OK.
Proof.
  unfold execute_line. rewrite !bind_run. reflexivity.
Qed.

End Facts.

(* ===================================================================== *)
(** ** Sweeps over a dispatch table *)

Lemma veto_trace_in tbl tr :
  veto_trace tbl tr -> forall t r, In (t, r) tr -> In t tbl.
Proof.
  induction 1 as [| t0 rest | t0 r0 rest tr Hr Hv IH]; intros t r Hin.
  - destruct Hin.
  - destruct Hin as [Heq | []]. inversion Heq. left; reflexivity.
  - destruct Hin as [Heq | Hin].
    + inversion Heq. left; reflexivity.
    + right. eapply IH; eassumption.
Qed.

Lemma veto_positions tbl tr :
  NoDup tbl -> veto_trace tbl tr ->
  forall k t, entry_at tbl k = Some t ->
    (invoked t tr <->
     forall j u, j < k -> entry_at tbl j = Some u ->
                 exists r, returned u r tr /\ r <> STAT_EAGAIN)
    /\ (returned t STAT_EAGAIN tr ->
        forall j u, k < j -> entry_at tbl j = Some u -> ~ invoked u tr).
Proof.
  unfold entry_at, invoked, returned.
  intros Hnd Hv. induction Hv as [| t0 rest | t0 r0 rest tr Hr Hv IH]; intros k t Hk.
  - destruct k; discriminate.
  - inversion Hnd as [| ? ? Hnotin Hnd']; subst.
    destruct k as [| k]; simpl in Hk.
    + inversion Hk; subst t. split.
      * split; [intros _ j u Hj; lia | intros _; exists STAT_EAGAIN; left; reflexivity].
      * intros _ j u Hj Hu [r [Heq | []]]. inversion Heq; subst u.
        destruct j; [lia |]. simpl in Hu. apply nth_error_In in Hu. contradiction.
    + assert (Hne : t <> t0).
      { intro; subst. apply nth_error_In in Hk. contradiction. }
      split.
      * split.
        -- intros [r [Heq | []]]. inversion Heq. congruence.
        -- intros Hall. destruct (Hall 0 t0 (Nat.lt_0_succ k) eq_refl) as [r [[Heq | []] Hr]].
           inversion Heq. congruence.
      * intros [Heq | []]. inversion Heq. congruence.
  - inversion Hnd as [| ? ? Hnotin Hnd']; subst.
    destruct k as [| k]; simpl in Hk.
    + inversion Hk; subst t. split.
      * split; [intros _ j u Hj; lia | intros _; exists r0; left; reflexivity].
      * intros [Heq | Hin]; [inversion Heq; congruence |].
        apply (veto_trace_in Hv) in Hin. contradiction.
    + assert (Hne : t <> t0).
      { intro; subst. apply nth_error_In in Hk. contradiction. }
      destruct (IH Hnd' k t Hk) as [[IH1 IH2] IH3]. split.
      * split.
        -- intros [r [Heq | Hin]]; [inversion Heq; congruence |].
           intros j u Hj Hu. destruct j as [| j]; simpl in Hu.
           ++ inversion Hu; subst u. exists r0. split; [left; reflexivity | assumption].
           ++ destruct (IH1 (ex_intro _ r Hin) j u (proj2 (Nat.succ_lt_mono j k) Hj) Hu) as [r' [Hin' Hr']].
              exists r'. split; [right; assumption | assumption].
        -- intros Hall.
           destruct IH2 as [r Hin].
           { intros j u Hj Hu.
             destruct (Hall (S j) u (proj1 (Nat.succ_lt_mono j k) Hj) Hu) as [r' [[Heq | Hin'] Hr']].
             - inversion Heq; subst. apply nth_error_In in Hu. contradiction.
             - exists r'. split; assumption. }
           exists r. right; assumption.
      * intros [Heq | Hin]; [inversion Heq; congruence |].
        intros j u Hj Hu [r' [Heq | Hin']].
        -- inversion Heq; subst. destruct j; [lia |]. simpl in Hu.
           apply nth_error_In in Hu. contradiction.
        -- destruct j as [| j]; [lia |]. simpl in Hu.
           apply (IH3 Hin j u (proj2 (Nat.succ_lt_mono k j) Hj) Hu).
           exists r'. assumption.
Qed.

Section SweepFacts.
Variable P : platform.
Variable E : Type.
Variable H : handler E.

Lemma DISPATCH_run t rest (w : world E) :
  DISPATCH P H t rest w =
  if stat_eqb (fst (run_task P H t w)) STAT_EAGAIN
  then (snd (run_task P H t w), [(t, fst (run_task P H t w))])
  else (fst (rest (snd (run_task P H t w))),
        (t, fst (run_task P H t w)) :: snd (rest (snd (run_task P H t w)))).
Proof.
  unfold DISPATCH. destruct (run_task P H t w) as [r w1]. simpl.
  destruct (stat_eqb r STAT_EAGAIN); [reflexivity |].
  destruct (rest w1); reflexivity.
Qed.

Lemma sweep_table_veto tbl : forall w : world E,
  veto_trace tbl (snd (sweep_table P H tbl w)).
Proof.
  induction tbl as [| t rest IH]; intro w; simpl.
  - constructor.
  - rewrite DISPATCH_run.
    destruct (stat_eqb _ STAT_EAGAIN) eqn:Hb; simpl.
    + apply stat_eqb_eq in Hb. rewrite Hb. constructor.
    + apply stat_eqb_neq in Hb. constructor; [assumption | apply IH].
Qed.

Lemma sweep_table_results tbl : forall (w : world E) t r,
  In (t, r) (snd (sweep_table P H tbl w)) ->
  exists w', r = fst (run_task P H t w').
Proof.
  induction tbl as [| t0 rest IH]; intros w t r; simpl.
  - intros [].
  - rewrite DISPATCH_run.
    destruct (stat_eqb _ STAT_EAGAIN); simpl.
    + intros [Heq | []]. inversion Heq; subst. eexists; reflexivity.
    + intros [Heq | Hin].
      * inversion Heq; subst. eexists; reflexivity.
      * eapply IH; eassumption.
Qed.

Lemma HSM_is_sweep_table : _controller_HSM P H = sweep_table P H dispatch_table.
Proof. reflexivity. Qed.

Lemma dispatch_table_NoDup : NoDup dispatch_table.
Proof.
  unfold dispatch_table.
  repeat (constructor; [simpl; intuition discriminate |]). constructor.
Qed.


Lemma controller_run_length ticks : forall w : world E,
  List.length (snd (controller_run P H ticks w)) = ticks.
Proof.
  induction ticks as [| n IH]; intro w; simpl; [reflexivity |].
  destruct (_controller_HSM P H w) as [w1 tr1].
  specialize (IH w1). destruct (controller_run P H n w1). simpl in *. congruence.
Qed.

End SweepFacts.

(* ===================================================================== *)
(** ** The tasks of this file, one poll at a time *)

(** Runs the monad's plumbing; a collaborator's answer stays symbolic. *)
Ltac mstep :=
  repeat (rewrite ?bind_run, ?invoke_run;
          cbv beta iota delta
            [get_cs modify_cs get_comm_mode set_comm_mode ret called];
          cbn [cs comm_mode ext log called fst snd
               linelen controller_state in_buf out_buf saved_buf led_timer
               with_linelen with_controller_state with_in_buf with_out_buf
               with_saved_buf with_led_timer]).

Ltac branch :=
  match goal with
  | |- context [if ?c then _ else _] => destruct c eqn:?
  end.

Section TaskFacts.

Variable P : platform.
Variable E : Type.
Variable H : handler E.


Lemma execute_line_state (w : world E) :
  controller_state (cs (snd (execute_line P H w))) = controller_state (cs w).
Proof.
  unfold execute_line, save_and_clear, protocol_switch, dispatch_gcode. mstep.
  repeat (branch; mstep); reflexivity.
Qed.

Lemma execute_line_linelen (w : world E) :
  linelen (cs (snd (execute_line P H w))) = 0.
Proof.
  unfold execute_line, save_and_clear, protocol_switch, dispatch_gcode. mstep.
  repeat (branch; mstep); reflexivity.
Qed.

Lemma execute_line_saved_buf (w : world E) :
  saved_buf (cs (snd (execute_line P H w))) =
  strncpy (saved_buf (cs w)) (in_buf (cs w)) (SAVED_BUFFER_LEN P - 1).
Proof.
  unfold execute_line, save_and_clear, protocol_switch, dispatch_gcode. mstep.
  repeat (branch; mstep); reflexivity.
Qed.

Lemma command_dispatch_status (w : world E) :
  fst (_command_dispatch P H w) = STAT_OK.
Proof.
  unfold _command_dispatch. mstep.
  destruct (fst (H SerialUSB_isConnected (ext w))); cbn [negb]; mstep;
    destruct (controller_state (cs w)); mstep;
    repeat first [reflexivity | apply execute_line_status | branch; mstep].
Qed.

End TaskFacts.

(** C7: the backpressure gate returns STAT_EAGAIN exactly when the planner
    reports fewer free buffers than PLANNER_BUFFER_HEADROOM and STAT_OK
    otherwise; it makes the one call that reads the count and leaves the
    controller structure and the response mode as they were. *)
Theorem sync_to_planner_pure_poll (P : platform) (E : Type) (H : handler E)
    (w : world E) :
  let n := fst (H mp_get_planner_buffers_available (ext w)) in
  let r := fst (_sync_to_planner P H w) in
  let w' := snd (_sync_to_planner P H w) in
  (r = STAT_EAGAIN <-> (n < PLANNER_BUFFER_HEADROOM P)%Z) /\
  (r = STAT_OK <-> (PLANNER_BUFFER_HEADROOM P <= n)%Z) /\
  cs w' = cs w /\
  comm_mode w' = comm_mode w /\
  log w' = log w ++ [mp_get_planner_buffers_available] /\
  ext w' = snd (H mp_get_planner_buffers_available (ext w)).
Proof.
  cbv zeta. unfold _sync_to_planner. mstep.
  destruct (Z.ltb_spec (fst (H mp_get_planner_buffers_available (ext w)))
                       (PLANNER_BUFFER_HEADROOM P)) as [Hlt | Hge]; mstep.
  - repeat split; try reflexivity; try assumption; try discriminate; lia.
  - repeat split; try reflexivity; try assumption; try discriminate; lia.
Qed.


(* ===================================================================== *)
(** ** Order and veto in one sweep *)

Lemma veto_trace_prefix tbl tr :
  veto_trace tbl tr -> exists n, map fst tr = firstn n tbl.
Proof.
  induction 1 as [| t rest | t r rest tr Hr Hv [n IH]].
  - exists 0. reflexivity.
  - exists 1. reflexivity.
  - exists (S n). simpl. rewrite IH. reflexivity.
Qed.

Lemma veto_trace_full tbl tr :
  veto_trace tbl tr ->
  (forall t r, returned t r tr -> r <> STAT_EAGAIN) ->
  map fst tr = tbl.
Proof.
  unfold returned.
  induction 1 as [| t rest | t r rest tr Hr Hv IH]; intros Hall.
  - reflexivity.
  - exfalso. apply (Hall t STAT_EAGAIN); [left |]; reflexivity.
  - simpl. f_equal. apply IH. intros u s Hin. apply (Hall u s). right; assumption.
Qed.

Lemma veto_next tbl tr k t u r :
  NoDup tbl -> veto_trace tbl tr ->
  entry_at tbl k = Some t -> entry_at tbl (S k) = Some u ->
  returned t r tr -> r <> STAT_EAGAIN -> invoked u tr.
Proof.
  intros Hnd Hv Ht Hu Hret Hr.
  apply (proj1 (veto_positions Hnd Hv (S k) Hu)).
  intros j v Hj Hv'.
  destruct (Nat.eq_dec j k) as [-> | Hne].
  - unfold entry_at in *. rewrite Ht in Hv'. inversion Hv'; subst v.
    exists r. split; assumption.
  - apply (proj1 (proj1 (veto_positions Hnd Hv k Ht))) with (j := j).
    + exists r; assumption.
    + lia.
    + assumption.
Qed.

Section SweepOrder.

Variable P : platform.
Variable E : Type.
Variable H : handler E.

Lemma HSM_veto (w : world E) :
  veto_trace dispatch_table (snd (_controller_HSM P H w)).
Proof. rewrite HSM_is_sweep_table. apply sweep_table_veto. Qed.

Lemma HSM_results (w : world E) t r :
  returned t r (snd (_controller_HSM P H w)) ->
  exists w', r = fst (run_task P H t w').
Proof. rewrite HSM_is_sweep_table. apply sweep_table_results. Qed.


End SweepOrder.


(* ===================================================================== *)
(** ** C strings in arrays *)

Lemma cstr_no_nul (b : buffer) : Forall (fun c => c <> NUL) (cstr b).
Proof.
  induction b as [| c rest IH]; simpl; [constructor |].
  destruct (Ascii.eqb c NUL) eqn:Hc; [constructor |].
  constructor; [apply Ascii.eqb_neq; exact Hc | exact IH].
Qed.

Lemma cstr_app (l r : list ascii) :
  Forall (fun c => c <> NUL) l -> cstr (l ++ r) = l ++ cstr r.
Proof.
  induction 1 as [| c l Hc Hl IH]; simpl; [reflexivity |].
  apply Ascii.eqb_neq in Hc. rewrite Hc, IH. reflexivity.
Qed.

Lemma cstr_nul_first (b : buffer) : hd NUL b = NUL -> cstr b = [].
Proof.
  destruct b as [| c rest]; simpl; [reflexivity |].
  intros ->. reflexivity.
Qed.

Lemma cstr_nul_cons (r : list ascii) : cstr (NUL :: r) = [].
Proof. reflexivity. Qed.

Lemma length_store (dst bytes : list ascii) :
  List.length (store dst bytes) = Nat.max (List.length bytes) (List.length dst).
Proof. unfold store. rewrite length_app, length_skipn. lia. Qed.

Lemma firstn_pad (s : list ascii) (n : nat) :
  List.length s < n ->
  exists m, firstn n (s ++ repeat NUL n) = s ++ NUL :: repeat NUL m.
Proof.
  intros Hlt. rewrite firstn_app, firstn_all2 by lia.
  destruct (n - List.length s) as [| k] eqn:Hk; [lia |].
  destruct n as [| n]; [lia |]. simpl.
  exists (List.length (firstn k (repeat NUL n))).
  f_equal. f_equal.
  assert (Hrep : forall a b, firstn a (repeat NUL b)
                             = repeat NUL (List.length (firstn a (repeat NUL b)))).
  { induction a as [| a IHa]; intros [| b]; simpl; try reflexivity.
    f_equal. apply IHa. }
  apply Hrep.
Qed.

Lemma length_firstn_pad (s : list ascii) (n : nat) :
  List.length (firstn n (s ++ repeat NUL n)) = n.
Proof. rewrite length_firstn, length_app, repeat_length. lia. Qed.

Lemma cstr_strncpy_short (dst src : buffer) (n : nat) :
  strlen src < n -> cstr (strncpy dst src n) = cstr src.
Proof.
  unfold strlen, strncpy, store. intros Hlt.
  destruct (firstn_pad (cstr src) Hlt) as [m ->].
  rewrite <- app_assoc, cstr_app by apply cstr_no_nul.
  simpl. apply app_nil_r.
Qed.

Lemma strlen_strncpy_ge (dst src : buffer) (n : nat) :
  Nat.min (strlen src) n <= strlen (strncpy dst src n).
Proof.
  destruct (Nat.lt_ge_cases (strlen src) n) as [Hlt | Hge].
  - unfold strlen at 2. rewrite cstr_strncpy_short by assumption.
    unfold strlen. lia.
  - unfold strlen in *. unfold strncpy, store.
    rewrite firstn_app.
    replace (n - List.length (cstr src)) with 0 by lia.
    rewrite firstn_O, app_nil_r.
    rewrite cstr_app.
    + rewrite length_app, length_firstn. lia.
    + pose proof (cstr_no_nul src) as Hall.
      rewrite <- (firstn_skipn n (cstr src)) in Hall.
      apply Forall_app in Hall. apply Hall.
Qed.

Lemma length_strncpy (dst src : buffer) (n : nat) :
  List.length (strncpy dst src n) = Nat.max n (List.length dst).
Proof. unfold strncpy. rewrite length_store, length_firstn_pad. reflexivity. Qed.

Lemma cstr_strncpy_empty (dst src : buffer) (n : nat) :
  hd NUL src = NUL -> 0 < n -> cstr (strncpy dst src n) = [].
Proof.
  intros Hhd Hn. rewrite cstr_strncpy_short.
  - apply cstr_nul_first. exact Hhd.
  - unfold strlen. rewrite (cstr_nul_first _ Hhd). exact Hn.
Qed.

Lemma gc_wrap_no_nul (s : list ascii) :
  Forall (fun c => c <> NUL) s -> Forall (fun c => c <> NUL) (gc_wrap s).
Proof.
  intros Hs. unfold gc_wrap.
  apply Forall_app. split; [| apply Forall_app; split; [exact Hs |]].
  - repeat constructor; discriminate.
  - repeat constructor; discriminate.
Qed.

Lemma length_gc_wrap (s : list ascii) :
  List.length (gc_wrap s) = List.length s + 10.
Proof. unfold gc_wrap. rewrite !length_app. simpl. lia. Qed.

Lemma cstr_sprintf_gc (dst src : buffer) :
  cstr (sprintf_gc dst src) = gc_wrap (cstr src).
Proof.
  unfold sprintf_gc, store. rewrite <- !app_assoc.
  rewrite cstr_app by (apply gc_wrap_no_nul, cstr_no_nul).
  cbn [app]. rewrite cstr_nul_cons. apply app_nil_r.
Qed.

Lemma length_sprintf_gc (dst src : buffer) :
  List.length (sprintf_gc dst src) = Nat.max (strlen src + 11) (List.length dst).
Proof.
  unfold sprintf_gc. rewrite length_store, length_app, length_gc_wrap.
  unfold strlen. simpl. lia.
Qed.

(* ===================================================================== *)
(** ** The paths through _command_dispatch *)

Lemma is_gcode_first_eqb (c : ascii) :
  is_gcode_first c ->
  Ascii.eqb (toupper c) NUL = false /\
  Ascii.eqb (toupper c) "H" = false /\
  Ascii.eqb (toupper c) "$" = false /\
  Ascii.eqb (toupper c) "?" = false /\
  Ascii.eqb (toupper c) "{" = false.
Proof.
  intros (H0 & H1 & H2 & H3 & H4).
  repeat split; apply Ascii.eqb_neq; assumption.
Qed.

Lemma comm_mode_eqb_eq (a b : comm_mode_t) : comm_mode_eqb a b = true <-> a = b.
Proof. destruct a, b; simpl; split; congruence. Qed.

Section Paths.

Variable P : platform.
Variable E : Type.
Variable H : handler E.

Let N := INPUT_BUFFER_LEN P.

(** Ready, connected, and [read_line] did not complete a line. *)
Lemma dispatch_ready_no_line (w : world E) e1 st b n e2 :
  controller_state (cs w) = CONTROLLER_READY ->
  H SerialUSB_isConnected (ext w) = (true, e1) ->
  H (read_line (in_buf (cs w)) (linelen (cs w)) N) e1 = ((st, b, n), e2) ->
  st <> STAT_OK ->
  _command_dispatch P H w =
  (STAT_OK,
   {| cs := with_linelen n (with_in_buf b (cs w));
      comm_mode := comm_mode w; ext := e2;
      log := log w ++ [SerialUSB_isConnected;
                       read_line (in_buf (cs w)) (linelen (cs w)) N] |}).
Proof.
  intros Hst Hconn Hread Hne. apply stat_eqb_neq in Hne.
  unfold _command_dispatch. mstep. rewrite Hconn. cbn [fst snd negb]. mstep.
  rewrite Hst. mstep. fold N. rewrite Hread. cbn [fst snd]. rewrite Hne.
  cbn [negb]. rewrite <- app_assoc. reflexivity.
Qed.

(** Ready, connected, and [read_line] completed a line. *)
Lemma dispatch_ready_line (w : world E) e1 b n e2 :
  controller_state (cs w) = CONTROLLER_READY ->
  H SerialUSB_isConnected (ext w) = (true, e1) ->
  H (read_line (in_buf (cs w)) (linelen (cs w)) N) e1 = ((STAT_OK, b, n), e2) ->
  _command_dispatch P H w =
  execute_line P H
    {| cs := with_linelen n (with_in_buf b (cs w));
       comm_mode := comm_mode w; ext := e2;
       log := log w ++ [SerialUSB_isConnected;
                        read_line (in_buf (cs w)) (linelen (cs w)) N] |}.
Proof.
  intros Hst Hconn Hread.
  unfold _command_dispatch. mstep. rewrite Hconn. cbn [fst snd negb]. mstep.
  rewrite Hst. mstep. fold N. rewrite Hread. cbn [fst snd stat_eqb negb].
  rewrite <- app_assoc. reflexivity.
Qed.

(** Not connected, and the transport reports a connection at both reads. *)
Lemma dispatch_connect (w : world E) e1 e2 :
  controller_state (cs w) = CONTROLLER_NOT_CONNECTED ->
  H SerialUSB_isConnected (ext w) = (true, e1) ->
  H SerialUSB_isConnected e1 = (true, e2) ->
  _command_dispatch P H w =
  execute_line P H
    {| cs := with_controller_state CONTROLLER_STARTUP (cs w);
       comm_mode := comm_mode w;
       ext := snd (H rpt_print_system_ready_message
                     (snd (H cm_request_queue_flush e2)));
       log := log w ++ [SerialUSB_isConnected; SerialUSB_isConnected;
                        cm_request_queue_flush;
                        rpt_print_system_ready_message] |}.
Proof.
  intros Hst Hconn Hconn2.
  unfold _command_dispatch. mstep. rewrite Hconn. cbn [fst snd negb]. mstep.
  rewrite Hst. mstep. rewrite Hconn2. cbn [fst snd negb]. mstep.
  rewrite <- !app_assoc. reflexivity.
Qed.

(** Startup and connected. *)
Lemma dispatch_startup (w : world E) e1 :
  controller_state (cs w) = CONTROLLER_STARTUP ->
  H SerialUSB_isConnected (ext w) = (true, e1) ->
  _command_dispatch P H w =
  execute_line P H
    {| cs := with_controller_state CONTROLLER_READY (cs w);
       comm_mode := comm_mode w; ext := e1;
       log := log w ++ [SerialUSB_isConnected] |}.
Proof.
  intros Hst Hconn.
  unfold _command_dispatch. mstep. rewrite Hconn. cbn [fst snd negb]. mstep.
  rewrite Hst. mstep. reflexivity.
Qed.

(** The transport reports no connection at both reads, in any state. *)
Lemma dispatch_disconnected (w : world E) e1 e2 :
  H SerialUSB_isConnected (ext w) = (false, e1) ->
  H SerialUSB_isConnected e1 = (false, e2) ->
  _command_dispatch P H w =
  (STAT_OK,
   {| cs := with_controller_state CONTROLLER_NOT_CONNECTED (cs w);
      comm_mode := comm_mode w; ext := e2;
      log := log w ++ [SerialUSB_isConnected; SerialUSB_isConnected] |}).
Proof.
  intros Hconn Hconn2.
  unfold _command_dispatch. mstep. rewrite Hconn. cbn [fst snd negb]. mstep.
  rewrite Hconn2. cbn [fst snd negb]. mstep. rewrite <- app_assoc. reflexivity.
Qed.

(** An empty line while the response mode is not JSON. *)
Lemma execute_line_empty_text (w : world E) :
  hd NUL (in_buf (cs w)) = NUL ->
  comm_mode w <> JSON_MODE ->
  let saved := strncpy (saved_buf (cs w)) (in_buf (cs w))
                       (SAVED_BUFFER_LEN P - 1) in
  execute_line P H w =
  (STAT_OK,
   {| cs := with_linelen 0 (with_saved_buf saved (cs w));
      comm_mode := comm_mode w;
      ext := snd (H (text_response STAT_OK saved) (ext w));
      log := log w ++ [text_response STAT_OK saved] |}).
Proof.
  intros Hhd Hmode. cbv zeta.
  unfold execute_line, save_and_clear, protocol_switch. mstep. rewrite Hhd.
  change (Ascii.eqb (toupper NUL) NUL) with true. cbv iota. mstep.
  destruct (comm_mode_eqb (comm_mode w) JSON_MODE) eqn:Hm.
  - apply comm_mode_eqb_eq in Hm. contradiction.
  - cbn [negb]. mstep. reflexivity.
Qed.

(** A G-code line while the response mode is JSON. *)
Lemma execute_line_gcode_json (w : world E) :
  is_gcode_first (hd NUL (in_buf (cs w))) ->
  comm_mode w = JSON_MODE ->
  let saved := strncpy (saved_buf (cs w)) (in_buf (cs w))
                       (SAVED_BUFFER_LEN P - 1) in
  let scratch := strncpy (out_buf (cs w)) (in_buf (cs w)) (N - 8) in
  let wrapped := sprintf_gc (in_buf (cs w)) scratch in
  execute_line P H w =
  (STAT_OK,
   {| cs := with_in_buf (fst (H (json_parser wrapped) (ext w)))
              (with_in_buf wrapped
                 (with_out_buf scratch
                    (with_linelen 0 (with_saved_buf saved (cs w)))));
      comm_mode := comm_mode w;
      ext := snd (H (json_parser wrapped) (ext w));
      log := log w ++ [json_parser wrapped] |}).
Proof.
  intros Hfirst Hmode. cbv zeta.
  destruct (is_gcode_first_eqb Hfirst) as (H0 & H1 & H2 & H3 & H4).
  unfold execute_line, save_and_clear, protocol_switch. mstep. rewrite H0, H1, H2, H3, H4. cbn [orb]. cbv iota.
  unfold dispatch_gcode. mstep. rewrite Hmode. cbn [comm_mode_eqb]. cbv iota.
  mstep. reflexivity.
Qed.

(** A G-code line while the response mode is not JSON. *)
Lemma execute_line_gcode_text (w : world E) :
  is_gcode_first (hd NUL (in_buf (cs w))) ->
  comm_mode w <> JSON_MODE ->
  let saved := strncpy (saved_buf (cs w)) (in_buf (cs w))
                       (SAVED_BUFFER_LEN P - 1) in
  let parsed := H (gc_gcode_parser (in_buf (cs w))) (ext w) in
  execute_line P H w =
  (STAT_OK,
   {| cs := with_in_buf (snd (fst parsed))
              (with_linelen 0 (with_saved_buf saved (cs w)));
      comm_mode := comm_mode w;
      ext := snd (H (text_response (fst (fst parsed)) saved) (snd parsed));
      log := log w ++ [gc_gcode_parser (in_buf (cs w));
                       text_response (fst (fst parsed)) saved] |}).
Proof.
  intros Hfirst Hmode. cbv zeta.
  destruct (is_gcode_first_eqb Hfirst) as (H0 & H1 & H2 & H3 & H4).
  unfold execute_line, save_and_clear, protocol_switch. mstep. rewrite H0, H1, H2, H3, H4. cbn [orb]. cbv iota.
  unfold dispatch_gcode. mstep.
  destruct (comm_mode_eqb (comm_mode w) JSON_MODE) eqn:Hm.
  - apply comm_mode_eqb_eq in Hm. contradiction.
  - mstep. rewrite <- app_assoc. reflexivity.
Qed.

(** Whatever the line, [execute_line] only appends to the log, and what it
    appends has no [read_line] call. *)
Lemma execute_line_log (w : world E) :
  exists l, log (snd (execute_line P H w)) = log w ++ l /\
            forall b i s, ~ In (read_line b i s) l.
Proof.
  unfold execute_line, save_and_clear, protocol_switch, dispatch_gcode. mstep.
  repeat (branch; mstep);
    rewrite <- ?app_assoc;
    first [ eexists; split; [reflexivity |];
            cbn [app]; intros b i s Hin; cbn [In] in Hin;
            intuition discriminate
          | exists []; split; [symmetry; apply app_nil_r | intros b i s []] ].
Qed.

End Paths.

(* ===================================================================== *)
(** ** The command dispatcher: results *)

(** C8: the command dispatcher returns STAT_OK, never STAT_EAGAIN, from
    every world.  When the state is Ready, the transport is connected and
    read_line reports anything but a complete line, it returns at once:
    the input buffer and the cursor stay as read_line left them, nothing
    else of the controller changes and no further call is made.  In a
    sweep that reaches the command dispatcher the normal idler is invoked
    as well. *)
Theorem command_dispatch_never_blocks (P : platform) (E : Type)
    (H : handler E) (w : world E) :
  fst (_command_dispatch P H w) = STAT_OK /\
  (forall e1 st b n e2,
      controller_state (cs w) = CONTROLLER_READY ->
      H SerialUSB_isConnected (ext w) = (true, e1) ->
      H (read_line (in_buf (cs w)) (linelen (cs w)) (INPUT_BUFFER_LEN P)) e1
      = ((st, b, n), e2) ->
      st <> STAT_OK ->
      snd (_command_dispatch P H w) =
      {| cs := with_linelen n (with_in_buf b (cs w));
         comm_mode := comm_mode w; ext := e2;
         log := log w ++
                [SerialUSB_isConnected;
                 read_line (in_buf (cs w)) (linelen (cs w))
                           (INPUT_BUFFER_LEN P)] |}) /\
  (invoked T_command_dispatch (snd (_controller_HSM P H w)) ->
   returned T_command_dispatch STAT_OK (snd (_controller_HSM P H w)) /\
   invoked T_normal_idler (snd (_controller_HSM P H w))).
Proof.
  split; [apply command_dispatch_status |]. split.
  - intros e1 st b n e2 Hst Hconn Hread Hne.
    rewrite (dispatch_ready_no_line P H w Hst Hconn Hread Hne). reflexivity.
  - intros [r Hr].
    destruct (HSM_results P H w _ _ Hr) as [w' Hw'].
    cbn [run_task] in Hw'. rewrite command_dispatch_status in Hw'. subst r.
    split; [exact Hr |].
    apply (@veto_next dispatch_table _ 12 T_command_dispatch T_normal_idler STAT_OK);
      [apply dispatch_table_NoDup | apply HSM_veto | reflexivity | reflexivity
      | exact Hr | discriminate].
Qed.

(** C2, as amended: in one poll of the command dispatcher in which the
    transport gives the same report at both reads, the connection state
    after the poll is a function of the state before it and that report.
    From NotConnected only NotConnected and Startup are reached; from
    Startup only Ready and NotConnected; from Ready only Ready and
    NotConnected. *)
Theorem connection_transitions (P : platform) (E : Type) (H : handler E)
    (w : world E) :
  steady_report H (ext w) ->
  let s := controller_state (cs w) in
  let s' := controller_state (cs (snd (_command_dispatch P H w))) in
  s' = next_state s (fst (H SerialUSB_isConnected (ext w))) /\
  (s = CONTROLLER_NOT_CONNECTED ->
   s' = CONTROLLER_NOT_CONNECTED \/ s' = CONTROLLER_STARTUP) /\
  (s = CONTROLLER_STARTUP ->
   s' = CONTROLLER_READY \/ s' = CONTROLLER_NOT_CONNECTED) /\
  (s = CONTROLLER_READY ->
   s' = CONTROLLER_READY \/ s' = CONTROLLER_NOT_CONNECTED).
Proof.
  unfold steady_report. intros Hsteady. cbv zeta.
  assert (Hnext : controller_state (cs (snd (_command_dispatch P H w)))
                  = next_state (controller_state (cs w))
                               (fst (H SerialUSB_isConnected (ext w)))).
  { destruct (H SerialUSB_isConnected (ext w)) as [b1 e1] eqn:Hconn.
    cbn [fst snd] in *.
    destruct (H SerialUSB_isConnected e1) as [b2 e2] eqn:Hconn2.
    cbn [fst] in Hsteady. subst b2.
    destruct b1; cbn [next_state].
    - destruct (controller_state (cs w)) eqn:Hst.
      + rewrite (dispatch_connect P H w Hst Hconn Hconn2).
        rewrite execute_line_state. reflexivity.
      + rewrite (dispatch_startup P H w Hst Hconn).
        rewrite execute_line_state. reflexivity.
      + destruct (H (read_line (in_buf (cs w)) (linelen (cs w))
                               (INPUT_BUFFER_LEN P)) e1)
          as [[[st b] n] e3] eqn:Hread.
        destruct (stat_eqb st STAT_OK) eqn:Hok.
        * apply stat_eqb_eq in Hok. subst st.
          rewrite (dispatch_ready_line P H w Hst Hconn Hread).
          rewrite execute_line_state. exact Hst.
        * apply stat_eqb_neq in Hok.
          rewrite (dispatch_ready_no_line P H w Hst Hconn Hread Hok).
          exact Hst.
      + unfold _command_dispatch. mstep. rewrite Hconn. cbn [fst snd negb].
        mstep. rewrite Hst. exact Hst.
    - rewrite (dispatch_disconnected P H w Hconn Hconn2). reflexivity. }
  split; [exact Hnext |].
  rewrite Hnext.
  destruct (fst (H SerialUSB_isConnected (ext w)));
    repeat split; intros ->; cbn; auto.
Qed.

(** One empty-line dispatch. *)
Lemma empty_line_once (P : platform) (E : Type) (H : handler E) (w : world E) :
  1 < SAVED_BUFFER_LEN P ->
  empty_line_poll P H w ->
  let rd := read_line (in_buf (cs w)) (linelen (cs w)) (INPUT_BUFFER_LEN P) in
  let b := snd (fst (fst (H rd (snd (H SerialUSB_isConnected (ext w)))))) in
  let saved := strncpy (saved_buf (cs w)) b (SAVED_BUFFER_LEN P - 1) in
  let w1 := snd (_command_dispatch P H w) in
  log w1 = log w ++ [SerialUSB_isConnected; rd; text_response STAT_OK saved] /\
  saved_buf (cs w1) = saved /\
  cstr saved = [] /\
  in_buf (cs w1) = b /\
  linelen (cs w1) = 0.
Proof.
  intros Hsaved (Hst & Hmode & Hconn & Hread). cbv zeta in *.
  destruct (H SerialUSB_isConnected (ext w)) as [b1 e1] eqn:Hc.
  cbn [fst snd] in *. subst b1.
  destruct (H (read_line (in_buf (cs w)) (linelen (cs w)) (INPUT_BUFFER_LEN P)) e1)
    as [[[st b] n] e2] eqn:Hr.
  cbn [fst snd] in *. destruct Hread as [-> Hhd].
  rewrite (dispatch_ready_line P H w Hst Hc Hr).
  rewrite execute_line_empty_text;
    [| exact Hhd | cbn [comm_mode]; rewrite Hmode; discriminate].
  cbn [snd cs comm_mode log linelen controller_state in_buf saved_buf
       with_linelen with_saved_buf with_in_buf].
  split; [rewrite <- app_assoc; reflexivity |].
  split; [reflexivity |].
  split; [apply cstr_strncpy_empty; [exact Hhd | lia] |].
  split; reflexivity.
Qed.

(** C9: dispatching an empty line in Ready state with text response mode
    calls the text-response emitter with STAT_OK and the saved buffer,
    which at that point is the copy of the line made at line 202 and holds
    the empty string; the cursor is 0 afterwards.  When the next poll
    dispatches an empty line too, its read_line is called with cursor 0
    and a second STAT_OK echo follows, of the saved copy of that second
    line, the cursor being 0 again afterwards.  On every dispatch the
    cursor is cleared before protocol handling begins: lines 202-239 are
    lines 202-203, which clear the cursor and call nothing, followed by
    the switch of lines 205-238, which makes all the calls and does not
    write the cursor. *)
Theorem empty_line_echo_twice (P : platform) (E : Type) (H : handler E)
    (w : world E) :
  1 < SAVED_BUFFER_LEN P ->
  empty_line_poll P H w ->
  let rd := read_line (in_buf (cs w)) (linelen (cs w)) (INPUT_BUFFER_LEN P) in
  let b := snd (fst (fst (H rd (snd (H SerialUSB_isConnected (ext w)))))) in
  let saved := strncpy (saved_buf (cs w)) b (SAVED_BUFFER_LEN P - 1) in
  let w1 := snd (_command_dispatch P H w) in
  let rd' := read_line (in_buf (cs w1)) 0 (INPUT_BUFFER_LEN P) in
  let b' := snd (fst (fst (H rd' (snd (H SerialUSB_isConnected (ext w1)))))) in
  let saved' := strncpy saved b' (SAVED_BUFFER_LEN P - 1) in
  let w2 := snd (_command_dispatch P H w1) in
  (log w1 = log w ++ [SerialUSB_isConnected; rd; text_response STAT_OK saved] /\
   saved_buf (cs w1) = saved /\
   cstr saved = [] /\
   linelen (cs w1) = 0) /\
  (empty_line_poll P H w1 ->
   log w2 = log w1 ++
            [SerialUSB_isConnected; rd'; text_response STAT_OK saved'] /\
   saved_buf (cs w2) = saved' /\
   cstr saved' = [] /\
   linelen (cs w2) = 0) /\
  (forall w0 : world E,
      execute_line P H w0 =
      bind (protocol_switch P H) (fun _ => ret STAT_OK)
           (snd (save_and_clear P w0)) /\
      linelen (cs (snd (save_and_clear P w0))) = 0 /\
      log (snd (save_and_clear P w0)) = log w0 /\
      ext (snd (save_and_clear P w0)) = ext w0 /\
      linelen (cs (snd (protocol_switch P H w0))) = linelen (cs w0)).
Proof.
  intros Hsaved Hpoll. cbv zeta.
  destruct (empty_line_once Hsaved Hpoll) as (Hlog1 & Hs1 & Hc1 & Hin1 & Hlen1).
  cbv zeta in *.
  split; [repeat split; assumption |]. split.
  - intros Hpoll1.
    destruct (empty_line_once Hsaved Hpoll1) as (Hlog2 & Hs2 & Hc2 & _ & Hlen2).
    cbv zeta in *. rewrite Hlen1, Hs1 in *.
    repeat split; assumption.
  - intros w0. split; [| split; [| split; [| split]]].
    + unfold execute_line. rewrite bind_run. reflexivity.
    + unfold save_and_clear. mstep. reflexivity.
    + unfold save_and_clear. mstep. reflexivity.
    + unfold save_and_clear. mstep. reflexivity.
    + unfold protocol_switch, dispatch_gcode. mstep.
      repeat (branch; mstep); reflexivity.
Qed.

(** C10: on the poll that takes NotConnected to Startup and on the poll
    that takes Startup to Ready the dispatcher does not return after the
    transition.  It goes on to lines 202-239 with the input buffer as it
    stood before the poll: no read_line call is made, the saved buffer is
    overwritten from that input buffer, the cursor is cleared, and the
    line is routed by its first byte like any other. *)
Theorem transition_polls_dispatch_stale_line (P : platform) (E : Type)
    (H : handler E) (w : world E) (e1 : E) :
  H SerialUSB_isConnected (ext w) = (true, e1) ->
  (controller_state (cs w) = CONTROLLER_NOT_CONNECTED /\
   fst (H SerialUSB_isConnected e1) = true \/
   controller_state (cs w) = CONTROLLER_STARTUP) ->
  let w' := snd (_command_dispatch P H w) in
  exists w0 : world E,
    _command_dispatch P H w = execute_line P H w0 /\
    in_buf (cs w0) = in_buf (cs w) /\
    saved_buf (cs w0) = saved_buf (cs w) /\
    controller_state (cs w0) = next_state (controller_state (cs w)) true /\
    controller_state (cs w') = next_state (controller_state (cs w)) true /\
    saved_buf (cs w') =
      strncpy (saved_buf (cs w)) (in_buf (cs w)) (SAVED_BUFFER_LEN P - 1) /\
    linelen (cs w') = 0 /\
    exists l, log w' = log w ++ l /\ forall b i s, ~ In (read_line b i s) l.
Proof.
  intros Hconn Hcase. cbv zeta.
  destruct Hcase as [[Hst Hconn2] | Hst].
  - destruct (H SerialUSB_isConnected e1) as [b2 e2] eqn:Hc2.
    cbn [fst] in Hconn2. subst b2.
    rewrite (dispatch_connect P H w Hst Hconn Hc2).
    eexists. split; [reflexivity |].
    rewrite execute_line_state, execute_line_saved_buf, execute_line_linelen.
    cbn [cs in_buf saved_buf controller_state with_controller_state].
    rewrite Hst. cbn [next_state].
    repeat split; try reflexivity.
    destruct (execute_line_log P H
                {| cs := with_controller_state CONTROLLER_STARTUP (cs w);
                   comm_mode := comm_mode w;
                   ext := snd (H rpt_print_system_ready_message
                                 (snd (H cm_request_queue_flush e2)));
                   log := log w ++ [SerialUSB_isConnected; SerialUSB_isConnected;
                                    cm_request_queue_flush;
                                    rpt_print_system_ready_message] |})
      as (l & Hl & Hno).
    cbn [log] in Hl. rewrite Hl. rewrite <- app_assoc.
    eexists. split; [reflexivity |].
    intros b i s Hin. apply in_app_or in Hin. destruct Hin as [Hin | Hin].
    + cbn [In] in Hin. intuition discriminate.
    + exact (Hno b i s Hin).
  - rewrite (dispatch_startup P H w Hst Hconn).
    eexists. split; [reflexivity |].
    rewrite execute_line_state, execute_line_saved_buf, execute_line_linelen.
    cbn [cs in_buf saved_buf controller_state with_controller_state].
    rewrite Hst. cbn [next_state].
    repeat split; try reflexivity.
    destruct (execute_line_log P H
                {| cs := with_controller_state CONTROLLER_READY (cs w);
                   comm_mode := comm_mode w; ext := e1;
                   log := log w ++ [SerialUSB_isConnected] |})
      as (l & Hl & Hno).
    cbn [log] in Hl. rewrite Hl. rewrite <- app_assoc.
    eexists. split; [reflexivity |].
    intros b i s Hin. apply in_app_or in Hin. destruct Hin as [Hin | Hin].
    + cbn [In] in Hin. intuition discriminate.
    + exact (Hno b i s Hin).
Qed.

(** C6, as amended: a complete line read in Ready state whose case-folded
    first byte is none of NUL, H, dollar, question mark, opening brace is
    routed by the response mode.  In JSON mode, when the line with its
    eleven bytes of wrapping fits the input buffer, the G-code parser is
    not called: the JSON parser is called, with the input buffer holding
    the line between the gc prefix and the closing quote, brace and
    newline, still within its capacity.  In any other mode the G-code
    parser is called with the raw line, and the text-response emitter is
    then called with the status it returned and the saved line. *)
Theorem gcode_line_routing (P : platform) (E : Type) (H : handler E)
    (w : world E) (e1 e2 : E) (b : buffer) (n : nat) :
  controller_state (cs w) = CONTROLLER_READY ->
  H SerialUSB_isConnected (ext w) = (true, e1) ->
  H (read_line (in_buf (cs w)) (linelen (cs w)) (INPUT_BUFFER_LEN P)) e1
  = ((STAT_OK, b, n), e2) ->
  is_gcode_first (hd NUL b) ->
  let w' := snd (_command_dispatch P H w) in
  let reading :=
    [SerialUSB_isConnected;
     read_line (in_buf (cs w)) (linelen (cs w)) (INPUT_BUFFER_LEN P)] in
  (comm_mode w = JSON_MODE ->
   List.length b = INPUT_BUFFER_LEN P ->
   INPUT_BUFFER_LEN P - 8 <= List.length (out_buf (cs w)) ->
   strlen b + 11 <= INPUT_BUFFER_LEN P ->
   exists arg,
     log w' = log w ++ reading ++ [json_parser arg] /\
     cstr arg = gc_prefix ++ cstr b ++ [dquote; "}"%char; newline] /\
     List.length arg = INPUT_BUFFER_LEN P /\
     List.length (out_buf (cs w')) = List.length (out_buf (cs w)) /\
     (forall s, ~ In (gc_gcode_parser s) (reading ++ [json_parser arg]))) /\
  (comm_mode w <> JSON_MODE ->
   let saved := strncpy (saved_buf (cs w)) b (SAVED_BUFFER_LEN P - 1) in
   log w' = log w ++ reading ++
            [gc_gcode_parser b;
             text_response (fst (fst (H (gc_gcode_parser b) e2))) saved]).
Proof.
  intros Hst Hconn Hread Hfirst. cbv zeta.
  rewrite (dispatch_ready_line P H w Hst Hconn Hread).
  split.
  - intros Hmode Hlen Hout Hfit.
    rewrite execute_line_gcode_json; [| exact Hfirst | exact Hmode].
    cbn [snd cs comm_mode log ext in_buf out_buf saved_buf
         with_linelen with_in_buf].
    eexists. split; [rewrite <- app_assoc; reflexivity |].
    rewrite cstr_sprintf_gc, cstr_strncpy_short by lia.
    split; [reflexivity |]. split; [| split].
    + rewrite length_sprintf_gc. unfold strlen at 1.
      rewrite cstr_strncpy_short by lia. fold (strlen b). lia.
    + cbn [with_out_buf out_buf]. rewrite length_strncpy. lia.
    + intros s Hin. cbn [app In] in Hin. intuition discriminate.
  - intros Hmode.
    rewrite execute_line_gcode_text; [| exact Hfirst | exact Hmode].
    cbn [snd cs comm_mode log ext in_buf out_buf saved_buf
         with_linelen with_in_buf].
    rewrite <- app_assoc. reflexivity.
Qed.

(** C4, on the code: in JSON mode a G-code line that comes within ten
    bytes of the input buffer's capacity is wrapped past the end of the
    buffer.  The array handed to the JSON parser is longer than
    INPUT_BUFFER_LEN: the wrapping takes ten characters and a terminating
    NUL, and the copy into the scratch buffer reserves eight. *)
Theorem gc_wrap_overruns_in_buf (P : platform) (E : Type) (H : handler E)
    (w : world E) (e1 e2 : E) (b : buffer) (n : nat) :
  controller_state (cs w) = CONTROLLER_READY ->
  comm_mode w = JSON_MODE ->
  H SerialUSB_isConnected (ext w) = (true, e1) ->
  H (read_line (in_buf (cs w)) (linelen (cs w)) (INPUT_BUFFER_LEN P)) e1
  = ((STAT_OK, b, n), e2) ->
  is_gcode_first (hd NUL b) ->
  8 <= INPUT_BUFFER_LEN P ->
  strlen b < INPUT_BUFFER_LEN P ->
  INPUT_BUFFER_LEN P <= strlen b + 10 ->
  exists arg,
    log (snd (_command_dispatch P H w)) =
    log w ++ [SerialUSB_isConnected;
              read_line (in_buf (cs w)) (linelen (cs w)) (INPUT_BUFFER_LEN P);
              json_parser arg] /\
    INPUT_BUFFER_LEN P < strlen arg + 1 /\
    INPUT_BUFFER_LEN P < List.length arg.
Proof.
  intros Hst Hmode Hconn Hread Hfirst H8 Hlt Hnear.
  rewrite (dispatch_ready_line P H w Hst Hconn Hread).
  rewrite execute_line_gcode_json; [| exact Hfirst | exact Hmode].
  cbn [snd cs comm_mode log ext in_buf out_buf saved_buf
       with_linelen with_in_buf].
  eexists. split; [rewrite <- app_assoc; reflexivity |].
  pose proof (strlen_strncpy_ge (out_buf (cs w)) b (INPUT_BUFFER_LEN P - 8)) as Hge.
  split.
  - unfold strlen at 1. rewrite cstr_sprintf_gc, length_gc_wrap.
    fold (strlen (strncpy (out_buf (cs w)) b (INPUT_BUFFER_LEN P - 8))). lia.
  - rewrite length_sprintf_gc. lia.
Qed.

(* ===================================================================== *)
(** ** The statements at work on the simulated board *)



(** A poll in Ready with a partial line in the buffer and no more input:
    the three bytes and the cursor are still there afterwards. *)
Lemma command_dispatch_keeps_partial_line :
  let w := snd (_command_dispatch Sim.plat Sim.run Examples.partial_world) in
  fst (_command_dispatch Sim.plat Sim.run Examples.partial_world) = STAT_OK /\
  cstr (in_buf (cs w)) = list_ascii_of_string "g1x" /\
  linelen (cs w) = 3.
Proof.
  cbv zeta.
  destruct (command_dispatch_never_blocks Sim.plat Sim.run Examples.partial_world)
    as (Hok & Hkeep & _).
  split; [exact Hok |].
  rewrite (Hkeep (ext Examples.partial_world) STAT_EAGAIN
             (in_buf (cs Examples.partial_world)) 3
             (ext Examples.partial_world));
    [split; reflexivity | reflexivity | reflexivity | reflexivity | discriminate].
Defined.

(** Startup with the cable in: the poll moves on to Ready. *)
Lemma connection_transitions_startup :
  steady_report Sim.run (ext Examples.plugged_startup) /\
  controller_state
    (cs (snd (_command_dispatch Sim.plat Sim.run Examples.plugged_startup)))
  = CONTROLLER_READY.
Proof.
  assert (Hsteady : steady_report Sim.run (ext Examples.plugged_startup))
    by reflexivity.
  split; [exact Hsteady |].
  rewrite (proj1 (@connection_transitions Sim.plat _ Sim.run
                    Examples.plugged_startup Hsteady)).
  reflexivity.
Defined.

(** C2, counterexample: in Startup with the cable pulled, one poll takes
    the controller to NotConnected, not to Ready. *)
Lemma startup_falls_back_to_not_connected :
  controller_state (cs Examples.unplugged_startup) = CONTROLLER_STARTUP /\
  controller_state
    (cs (snd (_command_dispatch Sim.plat Sim.run Examples.unplugged_startup)))
  = CONTROLLER_NOT_CONNECTED /\
  controller_state
    (cs (snd (_command_dispatch Sim.plat Sim.run Examples.unplugged_startup)))
  <> CONTROLLER_READY.
Proof.
  split; [reflexivity |]. split; [reflexivity |].
  vm_compute. discriminate.
Qed.

(** Why the reports must agree: when the transport answers no and then
    yes within one poll, the poll takes Ready to Startup. *)
Lemma flapping_transport_ready_to_startup :
  ~ steady_report Sim.run (ext Examples.flapping_ready) /\
  controller_state
    (cs (snd (_command_dispatch Sim.plat Sim.run Examples.flapping_ready)))
  = CONTROLLER_STARTUP.
Proof.
  split; [| reflexivity]. unfold steady_report. vm_compute. discriminate.
Qed.

(** Two empty lines in a row in text mode: both echoes are of the
    100-byte saved buffer, not of the 255-byte input buffer. *)
Lemma empty_line_echo_twice_run :
  let w := Examples.ready TEXT_MODE [[]; []] in
  let w1 := snd (_command_dispatch Sim.plat Sim.run w) in
  let w2 := snd (_command_dispatch Sim.plat Sim.run w1) in
  1 < SAVED_BUFFER_LEN Sim.plat /\
  empty_line_poll Sim.plat Sim.run w /\
  empty_line_poll Sim.plat Sim.run w1 /\
  log w2 =
  [SerialUSB_isConnected; read_line (in_buf (cs w)) 0 255;
   text_response STAT_OK (saved_buf (cs w1));
   SerialUSB_isConnected; read_line (in_buf (cs w1)) 0 255;
   text_response STAT_OK (saved_buf (cs w2))] /\
  List.length (saved_buf (cs w1)) = 100 /\
  List.length (in_buf (cs w1)) = 255 /\
  linelen (cs w2) = 0.
Proof.
  cbv zeta.
  assert (Hs : 1 < SAVED_BUFFER_LEN Sim.plat) by (vm_compute; lia).
  assert (Hp : empty_line_poll Sim.plat Sim.run (Examples.ready TEXT_MODE [[]; []])).
  { vm_compute. repeat split. }
  assert (Hp1 : empty_line_poll Sim.plat Sim.run
                  (snd (_command_dispatch Sim.plat Sim.run
                          (Examples.ready TEXT_MODE [[]; []])))).
  { vm_compute. repeat split. }
  destruct (empty_line_echo_twice Hs Hp)
    as ((Hlog1 & Hsv1 & _ & _) & Htwice & _).
  destruct (Htwice Hp1) as (Hlog2 & Hsv2 & _ & Hlen2).
  split; [exact Hs |]. split; [exact Hp |]. split; [exact Hp1 |].
  split; [| split; [vm_compute; reflexivity
                   | split; [vm_compute; reflexivity | exact Hlen2]]].
  rewrite Hlog2, Hlog1, Hsv2, Hsv1. reflexivity.
Defined.

(** Plugging the cable back in: the poll that goes to Startup hands the
    line of the previous session to the G-code parser again. *)
Lemma replug_replays_last_line :
  controller_state (cs Examples.replug_world) = CONTROLLER_NOT_CONNECTED /\
  cstr (in_buf (cs Examples.replug_world)) = line_g1 /\
  (let w' := snd (_command_dispatch Sim.plat Sim.run Examples.replug_world) in
   controller_state (cs w') = CONTROLLER_STARTUP /\
   cstr (saved_buf (cs w')) = line_g1 /\
   log w' =
   [SerialUSB_isConnected; SerialUSB_isConnected; cm_request_queue_flush;
    rpt_print_system_ready_message;
    gc_gcode_parser (in_buf (cs Examples.replug_world));
    text_response STAT_OK (saved_buf (cs w'))]).
Proof.
  split; [reflexivity |]. split; [reflexivity |]. cbv zeta.
  destruct (@transition_polls_dispatch_stale_line Sim.plat _ Sim.run
              Examples.replug_world (ext Examples.replug_world) eq_refl
              (or_introl (conj eq_refl eq_refl)))
    as (w0 & Hrun & _ & _ & _ & Hstate & Hsaved & _).
  split; [exact Hstate |]. split.
  - rewrite Hsaved. reflexivity.
  - vm_compute. reflexivity.
Defined.

(** The line g1f400x100 in JSON mode: the JSON parser gets it wrapped, and
    the G-code parser is not called. *)
Lemma gcode_line_routing_g1 :
  let w := Examples.ready JSON_MODE [line_g1] in
  let w' := snd (_command_dispatch Sim.plat Sim.run w) in
  is_gcode_first "g"%char /\
  json_parser_args (log w') =
  [list_ascii_of_string "{" ++ [dquote] ++ list_ascii_of_string "gc" ++
   [dquote] ++ list_ascii_of_string ":" ++ [dquote] ++
   list_ascii_of_string "g1f400x100" ++ [dquote] ++
   list_ascii_of_string "}" ++ [newline]] /\
  exists arg,
    log w' = [SerialUSB_isConnected;
              read_line (in_buf (cs w)) 0 255; json_parser arg] /\
    cstr arg = gc_prefix ++ line_g1 ++ [dquote; "}"%char; newline].
Proof.
  cbv zeta.
  assert (Hfirst : is_gcode_first "g"%char).
  { unfold is_gcode_first. vm_compute. repeat split; discriminate. }
  split; [exact Hfirst |]. split; [vm_compute; reflexivity |].
  destruct (@gcode_line_routing Sim.plat _ Sim.run
              (Examples.ready JSON_MODE [line_g1])
              (ext (Examples.ready JSON_MODE [line_g1]))
              (Sim.board0 [true] [])
              (store (repeat NUL 255) (line_g1 ++ [NUL])) 10
              eq_refl eq_refl eq_refl Hfirst) as [Hjson _].
  destruct Hjson as (arg & Hlog & Hcstr & _);
    [reflexivity | reflexivity | vm_compute; lia | vm_compute; lia |].
  exists arg. split; [exact Hlog | exact Hcstr].
Defined.

(** C6, counterexample: a 250-byte G-code line in JSON mode, with a
    255-byte input buffer.  Only its first 247 bytes reach the JSON
    parser. *)
Lemma long_gcode_line_is_cut :
  let w := Examples.ready JSON_MODE [long_line 250] in
  let w' := snd (_command_dispatch Sim.plat Sim.run w) in
  is_gcode_first (hd NUL (long_line 250)) /\
  strlen (long_line 250 ++ [NUL]) = 250 /\
  json_parser_args (log w') = [gc_wrap (firstn 247 (long_line 250))] /\
  gc_wrap (firstn 247 (long_line 250)) <> gc_wrap (long_line 250).
Proof.
  cbv zeta. split.
  - unfold is_gcode_first. vm_compute. repeat split; discriminate.
  - split; [vm_compute; reflexivity |]. split; [vm_compute; reflexivity |].
    intros Heq. apply (f_equal (@List.length ascii)) in Heq.
    vm_compute in Heq. discriminate.
Qed.

(** A 245-byte G-code line in JSON mode, with a 255-byte input buffer:
    the wrapped line and its terminator take 256 bytes. *)
Lemma gc_wrap_overruns_at_245 :
  let w := Examples.ready JSON_MODE [long_line 245] in
  let w' := snd (_command_dispatch Sim.plat Sim.run w) in
  INPUT_BUFFER_LEN Sim.plat = 255 /\
  List.length (in_buf (cs w)) = 255 /\
  is_gcode_first (hd NUL (long_line 245)) /\
  strlen (long_line 245 ++ [NUL]) = 245 /\
  List.length (in_buf (cs w')) = 256 /\
  exists arg,
    log w' = [SerialUSB_isConnected;
              read_line (in_buf (cs w)) 0 255; json_parser arg] /\
    255 < List.length arg.
Proof.
  cbv zeta.
  assert (Hfirst : is_gcode_first (hd NUL (long_line 245))).
  { unfold is_gcode_first. vm_compute. repeat split; discriminate. }
  split; [reflexivity |]. split; [vm_compute; reflexivity |].
  split; [exact Hfirst |].
  split; [vm_compute; reflexivity |]. split; [vm_compute; reflexivity |].
  destruct (@gc_wrap_overruns_in_buf Sim.plat _ Sim.run
              (Examples.ready JSON_MODE [long_line 245])
              (ext (Examples.ready JSON_MODE [long_line 245]))
              (Sim.board0 [true] [])
              (store (repeat NUL 255) (long_line 245 ++ [NUL])) 245)
    as (arg & Hlog & _ & Hlen);
    try (vm_compute; reflexivity); try (vm_compute; lia).
  - replace (hd NUL (store (repeat NUL 255) (long_line 245 ++ [NUL])))
      with (hd NUL (long_line 245)) by reflexivity.
    exact Hfirst.
  - exists arg. split; [exact Hlog | exact Hlen].
Defined.

(* ===================================================================== *)
(** ** Further properties: the indicators *)

Lemma wrap32_range (z : Z) : (0 <= wrap32 z < 2 ^ 32)%Z.
Proof. unfold wrap32. apply Z.mod_pos_bound. reflexivity. Qed.

(** X1: the normal idler returns STAT_OK on every poll and writes nothing
    of the controller but the LED deadline.  It reads the clock, and only
    when the reading is past the deadline does it read the clock again,
    move the deadline LED_NORMAL_TIMER past that second reading (as a
    32-bit value) and toggle the LED once: the controller structure after
    the poll is the one before it with the new deadline, every other field
    as it was.  Otherwise the structure is unchanged and the LED is not
    touched. *)
Theorem normal_idler_heartbeat (P : platform) (E : Type) (H : handler E)
    (w : world E) :
  let now := fst (H SysTickTimer_getValue (ext w)) in
  let e1 := snd (H SysTickTimer_getValue (ext w)) in
  let w' := snd (_normal_idler P H w) in
  fst (_normal_idler P H w) = STAT_OK /\
  line_state w' = line_state w /\
  ((led_timer (cs w) < now)%Z ->
   log w' = log w ++ [SysTickTimer_getValue; SysTickTimer_getValue;
                      IndicatorLed_toggle] /\
   cs w' =
     with_led_timer
       (wrap32 (fst (H SysTickTimer_getValue e1) + LED_NORMAL_TIMER P)) (cs w) /\
   ext w' = snd (H IndicatorLed_toggle (snd (H SysTickTimer_getValue e1))) /\
   comm_mode w' = comm_mode w /\
   led_timer (cs w') =
     wrap32 (fst (H SysTickTimer_getValue e1) + LED_NORMAL_TIMER P) /\
   (0 <= led_timer (cs w') < 2 ^ 32)%Z) /\
  ((now <= led_timer (cs w))%Z ->
   log w' = log w ++ [SysTickTimer_getValue] /\ cs w' = cs w /\ ext w' = e1).
Proof.
  cbv zeta. unfold _normal_idler, line_state. mstep.
  destruct (Z.ltb_spec (led_timer (cs w)) (fst (H SysTickTimer_getValue (ext w))))
    as [Hlt | Hge]; mstep.
  - split; [reflexivity |]. split; [reflexivity |]. split.
    + intros _. rewrite <- !app_assoc.
      split; [reflexivity |]. split; [reflexivity |]. split; [reflexivity |].
      split; [reflexivity |]. split; [reflexivity | apply wrap32_range].
    + intros Hle. lia.
  - split; [reflexivity |]. split; [reflexivity |]. split.
    + intros Hlt. lia.
    + intros _. repeat split.
Qed.

(** X2: the alarm idler makes no call but the state query and changes
    nothing when the machine is not in alarm.  In alarm it writes nothing
    of the controller but the LED deadline, and toggles the LED once, moving
    the deadline LED_ALARM_TIMER past a fresh clock reading, exactly when
    the clock reading is past the deadline: the controller structure after
    such a poll is the one before it with the new deadline, and after any
    other poll it is unchanged. *)
Theorem alarm_idler_effects (P : platform) (E : Type) (H : handler E)
    (w : world E) :
  let ms := fst (H cm_get_machine_state (ext w)) in
  let e1 := snd (H cm_get_machine_state (ext w)) in
  let now := fst (H SysTickTimer_getValue e1) in
  let e2 := snd (H SysTickTimer_getValue e1) in
  let w' := snd (_alarm_idler P H w) in
  line_state w' = line_state w /\
  (ms <> MACHINE_ALARM P ->
   log w' = log w ++ [cm_get_machine_state] /\ cs w' = cs w /\ ext w' = e1) /\
  (ms = MACHINE_ALARM P -> (led_timer (cs w) < now)%Z ->
   log w' = log w ++ [cm_get_machine_state; SysTickTimer_getValue;
                      SysTickTimer_getValue; IndicatorLed_toggle] /\
   cs w' =
     with_led_timer
       (wrap32 (fst (H SysTickTimer_getValue e2) + LED_ALARM_TIMER P)) (cs w) /\
   ext w' = snd (H IndicatorLed_toggle (snd (H SysTickTimer_getValue e2))) /\
   comm_mode w' = comm_mode w /\
   led_timer (cs w') =
     wrap32 (fst (H SysTickTimer_getValue e2) + LED_ALARM_TIMER P)) /\
  (ms = MACHINE_ALARM P -> (now <= led_timer (cs w))%Z ->
   log w' = log w ++ [cm_get_machine_state; SysTickTimer_getValue] /\
   cs w' = cs w /\ ext w' = e2).
Proof.
  cbv zeta. unfold _alarm_idler, line_state. mstep.
  destruct (Z.eqb_spec (fst (H cm_get_machine_state (ext w))) (MACHINE_ALARM P))
    as [Heq | Hne]; cbn [negb]; mstep.
  - destruct (Z.ltb_spec (led_timer (cs w))
                (fst (H SysTickTimer_getValue (snd (H cm_get_machine_state (ext w))))))
      as [Hlt | Hge]; mstep.
    + split; [reflexivity |]. split; [intros Hn; contradiction |]. split.
      * intros _ _. rewrite <- !app_assoc. repeat split.
      * intros _ Hle. lia.
    + split; [reflexivity |]. split; [intros Hn; contradiction |]. split.
      * intros _ Hlt. lia.
      * intros _ _. rewrite <- !app_assoc. repeat split.
  - split; [reflexivity |]. split.
    + intros _. repeat split.
    + split; intros Heq; contradiction.
Qed.

(* ===================================================================== *)
(** ** Further properties: who calls what, and who writes what *)

Lemma count_app (p : call -> bool) (l1 l2 : list call) :
  count p (l1 ++ l2) = count p l1 + count p l2.
Proof. unfold count. rewrite filter_app, length_app. reflexivity. Qed.

Lemma count_none (p q : call -> bool) (l : list call) :
  (forall c, q c = true -> p c = false) ->
  forallb q l = true -> count p l = 0.
Proof.
  intros Hpq. unfold count. induction l as [| c l IH]; simpl; [reflexivity |].
  intros Hall. apply andb_true_iff in Hall. destruct Hall as [Hc Hl].
  rewrite (Hpq c Hc). apply IH. exact Hl.
Qed.

Lemma forallb_weaken (p q : call -> bool) (l : list call) :
  (forall c, p c = true -> q c = true) ->
  forallb p l = true -> forallb q l = true.
Proof.
  intros Hpq. induction l as [| c l IH]; simpl; [reflexivity |].
  intros Hall. apply andb_true_iff in Hall. destruct Hall as [Hc Hl].
  rewrite (Hpq c Hc), (IH Hl). reflexivity.
Qed.

Lemma line_call_dispatcher_call (c : call) :
  line_call c = true -> dispatcher_call c = true.
Proof. destruct c; simpl; congruence. Qed.

Section Effects.

Variable P : platform.
Variable E : Type.
Variable H : handler E.

(** Lines 202-239 make at most two calls, all of them to parsers, the help
    screen or the response emitter. *)
Lemma execute_line_calls (w : world E) :
  exists l, log (snd (execute_line P H w)) = log w ++ l /\
            forallb line_call l = true /\ List.length l <= 2.
Proof.
  unfold execute_line, save_and_clear, protocol_switch, dispatch_gcode. mstep.
  repeat (branch; mstep);
    rewrite <- ?app_assoc;
    first [ eexists; split; [reflexivity |]; split; [reflexivity | simpl; lia]
          | exists []; split; [symmetry; apply app_nil_r |];
            split; [reflexivity | simpl; lia] ].
Qed.

Lemma execute_line_led_timer (w : world E) :
  led_timer (cs (snd (execute_line P H w))) = led_timer (cs w).
Proof.
  unfold execute_line, save_and_clear, protocol_switch, dispatch_gcode. mstep.
  repeat (branch; mstep); reflexivity.
Qed.

Lemma execute_line_in_state (w0 w : world E) (pre : list call) :
  log w = log w0 ++ pre ->
  forallb dispatcher_call pre = true ->
  led_timer (cs w) = led_timer (cs w0) ->
  (exists l, log (snd (execute_line P H w)) = log w0 ++ l /\
             forallb dispatcher_call l = true) /\
  led_timer (cs (snd (execute_line P H w))) = led_timer (cs w0).
Proof.
  intros Hlog Hpre Hled.
  destruct (execute_line_calls w) as (l & Hl & Hall & _).
  split.
  - exists (pre ++ l). split.
    + rewrite Hl, Hlog, app_assoc. reflexivity.
    + rewrite forallb_app, Hpre.
      rewrite (@forallb_weaken line_call dispatcher_call l line_call_dispatcher_call Hall).
      reflexivity.
  - rewrite execute_line_led_timer. exact Hled.
Qed.

(** The command dispatcher calls nothing but its own collaborators and
    leaves the LED deadline alone. *)
Lemma command_dispatch_calls (w : world E) :
  (exists l, log (snd (_command_dispatch P H w)) = log w ++ l /\
             forallb dispatcher_call l = true) /\
  led_timer (cs (snd (_command_dispatch P H w))) = led_timer (cs w).
Proof.
  unfold _command_dispatch. mstep.
  destruct (fst (H SerialUSB_isConnected (ext w))); cbn [negb]; mstep;
    [destruct (controller_state (cs w)); mstep |];
    repeat (branch; mstep);
    first [ eapply execute_line_in_state with (w0 := w);
            [cbn [log]; rewrite <- ?app_assoc; reflexivity
            | reflexivity | reflexivity]
          | split; [| reflexivity]; rewrite <- ?app_assoc;
            eexists; split; reflexivity ].
Qed.

(** Every entry but the command dispatcher leaves the dispatcher's state
    alone and makes none of the dispatcher's calls. *)
Lemma run_task_frame (t : task) (w : world E) :
  t <> T_command_dispatch ->
  line_state (snd (run_task P H t w)) = line_state w /\
  exists l, log (snd (run_task P H t w)) = log w ++ l /\
            forallb (fun c => negb (dispatcher_call c)) l = true.
Proof.
  intros Hne. unfold line_state.
  destruct t; try congruence; cbn [run_task];
    unfold _alarm_idler, _normal_idler, _sync_to_planner, _limit_switch_handler;
    mstep; repeat (branch; mstep);
    (split; [reflexivity |]); rewrite <- ?app_assoc;
    first [ eexists; split; reflexivity
          | exists []; split; [symmetry; apply app_nil_r | reflexivity] ].
Qed.

(** The LED toggles an entry can make in one poll. *)
Lemma run_task_toggles (t : task) (w : world E) :
  exists l, log (snd (run_task P H t w)) = log w ++ l /\
            count is_toggle l <=
            match t with
            | T_normal_idler => 1
            | T_alarm_idler =>
                if stat_eqb (fst (run_task P H t w)) STAT_EAGAIN then 1 else 0
            | _ => 0
            end.
Proof.
  destruct t; cbn [run_task];
    try (destruct (command_dispatch_calls w) as [(l & Hl & Hall) _];
         exists l; split; [exact Hl |];
         rewrite (@count_none is_toggle dispatcher_call l); [lia | | exact Hall];
         intros c; destruct c; simpl; congruence);
    unfold _alarm_idler, _normal_idler, _sync_to_planner, _limit_switch_handler;
    mstep; repeat (branch; mstep); rewrite <- ?app_assoc;
    first [ discriminate
          | eexists; split; [reflexivity | cbn; lia]
          | exists []; split; [symmetry; apply app_nil_r | cbn; lia] ].
Qed.

Lemma sweep_table_frame (tbl : list task) : forall w : world E,
  ~ invoked T_command_dispatch (snd (sweep_table P H tbl w)) ->
  line_state (fst (sweep_table P H tbl w)) = line_state w /\
  exists l, log (fst (sweep_table P H tbl w)) = log w ++ l /\
            forallb (fun c => negb (dispatcher_call c)) l = true.
Proof.
  induction tbl as [| t rest IH]; intros w Hnot; cbn [sweep_table].
  - split; [reflexivity |]. exists []. split; [symmetry; apply app_nil_r | reflexivity].
  - cbn [sweep_table] in Hnot. rewrite DISPATCH_run in *.
    assert (Hne : t <> T_command_dispatch).
    { intros ->. apply Hnot.
      destruct (stat_eqb _ STAT_EAGAIN); eexists; left; reflexivity. }
    destruct (run_task_frame w Hne) as (Hfr & l1 & Hl1 & Hall1).
    destruct (stat_eqb (fst (run_task P H t w)) STAT_EAGAIN); cbn [fst snd] in *.
    + split; [exact Hfr |]. exists l1. split; assumption.
    + destruct (IH (snd (run_task P H t w))) as (Hfr2 & l2 & Hl2 & Hall2).
      { intros [r Hr]. apply Hnot. exists r. right. exact Hr. }
      split; [rewrite Hfr2; exact Hfr |].
      exists (l1 ++ l2). split.
      * rewrite Hl2, Hl1, app_assoc. reflexivity.
      * rewrite forallb_app, Hall1, Hall2. reflexivity.
Qed.

Lemma sweep_table_toggles (tbl : list task) :
  ~ In T_alarm_idler tbl ->
  forall w : world E,
  exists l, log (fst (sweep_table P H tbl w)) = log w ++ l /\
            count is_toggle l <=
            List.length (filter (fun t => match t with
                                          | T_normal_idler => true
                                          | _ => false end) tbl).
Proof.
  induction tbl as [| t rest IH]; intros Hno w; cbn [sweep_table].
  - exists []. split; [symmetry; apply app_nil_r | cbn; lia].
  - rewrite DISPATCH_run.
    destruct (run_task_toggles t w) as (l1 & Hl1 & Hc1).
    assert (Hc1' : count is_toggle l1 <=
                   (if match t with T_normal_idler => true | _ => false end
                    then 1 else 0)).
    { destruct t; try exact Hc1. exfalso. apply Hno. left; reflexivity. }
    assert (Hrest : ~ In T_alarm_idler rest)
      by (intros Hin; apply Hno; right; exact Hin).
    destruct (stat_eqb (fst (run_task P H t w)) STAT_EAGAIN); cbn [fst snd].
    + exists l1. split; [exact Hl1 |]. cbn [filter].
      destruct (match t with T_normal_idler => true | _ => false end);
        cbn [List.length]; lia.
    + destruct (IH Hrest (snd (run_task P H t w))) as (l2 & Hl2 & Hc2).
      exists (l1 ++ l2). split.
      * rewrite Hl2, Hl1, app_assoc. reflexivity.
      * rewrite count_app. cbn [filter].
        destruct (match t with T_normal_idler => true | _ => false end);
          cbn [List.length]; lia.
Qed.

(** One sweep toggles the LED at most once. *)
Lemma HSM_toggles (w : world E) :
  exists l, log (fst (_controller_HSM P H w)) = log w ++ l /\
            count is_toggle l <= 1.
Proof.
  unfold _controller_HSM. rewrite DISPATCH_run.
  destruct (run_task_toggles T_hw_hard_reset_handler w) as (l0 & Hl0 & Hc0).
  destruct (stat_eqb (fst (run_task P H T_hw_hard_reset_handler w)) STAT_EAGAIN);
    cbn [fst snd].
  - exists l0. split; [exact Hl0 | lia].
  - set (w1 := snd (run_task P H T_hw_hard_reset_handler w)) in *.
    rewrite DISPATCH_run.
    destruct (run_task_toggles T_alarm_idler w1) as (l1 & Hl1 & Hc1).
    destruct (stat_eqb (fst (run_task P H T_alarm_idler w1)) STAT_EAGAIN);
      cbn [fst snd].
    + exists (l0 ++ l1). split.
      * rewrite Hl1, Hl0, app_assoc. reflexivity.
      * rewrite count_app. lia.
    + set (w2 := snd (run_task P H T_alarm_idler w1)) in *.
      destruct (@sweep_table_toggles (skipn 2 dispatch_table)
                  ltac:(cbn; intuition discriminate) w2) as (l2 & Hl2 & Hc2).
      exists (l0 ++ l1 ++ l2). split.
      * cbn [skipn dispatch_table sweep_table] in Hl2. rewrite Hl2, Hl1, Hl0.
        rewrite <- !app_assoc. reflexivity.
      * rewrite !count_app. cbn in Hc2. lia.
Qed.

End Effects.

(** X3: when one of the twelve entries ahead of the command dispatcher
    returns STAT_EAGAIN, the sweep does not reach the dispatcher, and the
    line in progress is not lost: the three buffers, the cursor, the
    connection state and the response mode are as before the sweep, and
    the sweep makes none of the dispatcher's calls (no read_line, no
    parser, no response). *)
Theorem blocked_sweep_keeps_line (P : platform) (E : Type) (H : handler E)
    (w : world E) (t : task) (k : nat) :
  entry_at dispatch_table k = Some t ->
  k < 12 ->
  returned t STAT_EAGAIN (snd (_controller_HSM P H w)) ->
  ~ invoked T_command_dispatch (snd (_controller_HSM P H w)) /\
  line_state (fst (_controller_HSM P H w)) = line_state w /\
  exists l, log (fst (_controller_HSM P H w)) = log w ++ l /\
            forallb (fun c => negb (dispatcher_call c)) l = true.
Proof.
  intros Hk Hlt Hret.
  assert (Hnot : ~ invoked T_command_dispatch (snd (_controller_HSM P H w))).
  { apply (proj2 (veto_positions dispatch_table_NoDup (HSM_veto P H w) k Hk)
             Hret 12 T_command_dispatch); [exact Hlt | reflexivity]. }
  split; [exact Hnot |].
  rewrite HSM_is_sweep_table in *. apply sweep_table_frame. exact Hnot.
Qed.

(** X4: over any number of iterations of the loop the LED is toggled at
    most once per iteration: the alarm idler toggles only in a sweep it
    blocks, which the normal idler then does not see. *)
Theorem led_toggles_at_most_once_per_tick (P : platform) (E : Type)
    (H : handler E) (ticks : nat) (w : world E) :
  exists l, log (fst (controller_run P H ticks w)) = log w ++ l /\
            count is_toggle l <= ticks.
Proof.
  revert w. induction ticks as [| n IH]; intros w; cbn [controller_run].
  - exists []. split; [symmetry; apply app_nil_r | cbn; lia].
  - destruct (HSM_toggles P H w) as (l1 & Hl1 & Hc1).
    destruct (_controller_HSM P H w) as [w1 tr1]. cbn [fst] in Hl1.
    destruct (IH w1) as (l2 & Hl2 & Hc2).
    destruct (controller_run P H n w1) as [w2 trs]. cbn [fst] in *.
    exists (l1 ++ l2). split.
    + rewrite Hl2, Hl1, app_assoc. reflexivity.
    + rewrite count_app. lia.
Qed.

(** X5: in one poll the command dispatcher calls read_line at most once,
    and only when the state was Ready and the transport reported a
    connection at the first read. *)
Theorem read_line_only_when_ready (P : platform) (E : Type) (H : handler E)
    (w : world E) :
  exists l, log (snd (_command_dispatch P H w)) = log w ++ l /\
            count is_read_line l <= 1 /\
            (count is_read_line l = 1 ->
             controller_state (cs w) = CONTROLLER_READY /\
             fst (H SerialUSB_isConnected (ext w)) = true).
Proof.
  assert (Hline : forall (w1 : world E) pre,
             log w1 = log w ++ pre ->
             exists l, log (snd (execute_line P H w1)) = log w ++ l /\
                       count is_read_line l = count is_read_line pre).
  { intros w1 pre Hpre.
    destruct (execute_line_calls P H w1) as (l & Hl & Hall & _).
    exists (pre ++ l). split.
    - rewrite Hl, Hpre, app_assoc. reflexivity.
    - rewrite count_app, (@count_none is_read_line line_call l); [lia | | exact Hall].
      intros c; destruct c; simpl; congruence. }
  unfold _command_dispatch. mstep.
  destruct (fst (H SerialUSB_isConnected (ext w))) eqn:Hc; cbn [negb]; mstep;
    [destruct (controller_state (cs w)) eqn:Hst; mstep |];
    repeat (branch; mstep);
    first [ match goal with
            | |- context [execute_line P H ?W] =>
                let pf := fresh "Hpre" in
                eassert (pf : log W = log w ++ _)
                  by (cbn [log]; rewrite <- ?app_assoc; reflexivity);
                destruct (Hline W _ pf) as (l & Hl & Hcount)
            end;
            exists l; split; [exact Hl |]; rewrite Hcount; cbn;
            split; [lia | intros Hone; first [discriminate | split; reflexivity]]
          | rewrite <- ?app_assoc; eexists; split; [reflexivity |]; cbn;
            split; [lia | intros Hone; first [discriminate | split; reflexivity]] ].
Qed.

(* ===================================================================== *)
(** ** Further properties: the connection handshake *)

(** X6: the poll that finds a connection while NotConnected requests one
    queue flush and prints one system-ready message, in that order, before
    anything is done with a line, and leaves the controller in Startup. *)
Theorem connect_announces_once (P : platform) (E : Type) (H : handler E)
    (w : world E) (e1 e2 : E) :
  controller_state (cs w) = CONTROLLER_NOT_CONNECTED ->
  H SerialUSB_isConnected (ext w) = (true, e1) ->
  H SerialUSB_isConnected e1 = (true, e2) ->
  let w' := snd (_command_dispatch P H w) in
  controller_state (cs w') = CONTROLLER_STARTUP /\
  exists l,
    log w' = log w ++ [SerialUSB_isConnected; SerialUSB_isConnected;
                       cm_request_queue_flush;
                       rpt_print_system_ready_message] ++ l /\
    forallb line_call l = true /\
    count is_flush ([SerialUSB_isConnected; SerialUSB_isConnected;
                     cm_request_queue_flush;
                     rpt_print_system_ready_message] ++ l) = 1 /\
    count is_ready_message ([SerialUSB_isConnected; SerialUSB_isConnected;
                             cm_request_queue_flush;
                             rpt_print_system_ready_message] ++ l) = 1.
Proof.
  intros Hst Hc1 Hc2. cbv zeta.
  rewrite (dispatch_connect P H w Hst Hc1 Hc2).
  rewrite execute_line_state. split; [reflexivity |].
  match goal with
  | |- context [execute_line P H ?W] =>
      destruct (execute_line_calls P H W) as (l & Hl & Hall & _)
  end.
  exists l. cbn [log] in Hl. rewrite Hl, <- app_assoc.
  split; [reflexivity |]. split; [exact Hall |].
  rewrite !count_app.
  rewrite (@count_none is_flush line_call l);
    [| intros c; destruct c; simpl; congruence | exact Hall].
  rewrite (@count_none is_ready_message line_call l);
    [| intros c; destruct c; simpl; congruence | exact Hall].
  split; reflexivity.
Qed.

(** X7: a poll that finds the transport disconnected at both reads returns
    STAT_OK with the controller NotConnected, whatever the state was.  It
    reads no line and calls no parser, and the buffers, the cursor and the
    response mode are left as they were. *)
Theorem disconnected_poll_is_inert (P : platform) (E : Type) (H : handler E)
    (w : world E) (e1 e2 : E) :
  H SerialUSB_isConnected (ext w) = (false, e1) ->
  H SerialUSB_isConnected e1 = (false, e2) ->
  let w' := snd (_command_dispatch P H w) in
  fst (_command_dispatch P H w) = STAT_OK /\
  controller_state (cs w') = CONTROLLER_NOT_CONNECTED /\
  log w' = log w ++ [SerialUSB_isConnected; SerialUSB_isConnected] /\
  in_buf (cs w') = in_buf (cs w) /\
  linelen (cs w') = linelen (cs w) /\
  saved_buf (cs w') = saved_buf (cs w) /\
  out_buf (cs w') = out_buf (cs w) /\
  comm_mode w' = comm_mode w.
Proof.
  intros Hc1 Hc2. cbv zeta.
  rewrite (dispatch_disconnected P H w Hc1 Hc2). repeat split.
Qed.

(** X8: after controller_init no line is read in the first two polls of
    the command dispatcher, whatever the transport reports, and the first
    poll never ends in Ready.  When the transport reports a connection at
    each of the three reads of those two polls, the first poll ends in
    Startup and the second in Ready. *)
Theorem handshake_takes_two_polls (P : platform) (E : Type) (H : handler E)
    (w : world E) :
  let w0 := snd (controller_init P w) in
  let w1 := snd (_command_dispatch P H w0) in
  let w2 := snd (_command_dispatch P H w1) in
  controller_state (cs w1) <> CONTROLLER_READY /\
  (exists l, log w2 = log w ++ l /\ count is_read_line l = 0) /\
  (fst (H SerialUSB_isConnected (ext w)) = true ->
   fst (H SerialUSB_isConnected (snd (H SerialUSB_isConnected (ext w)))) = true ->
   fst (H SerialUSB_isConnected (ext w1)) = true ->
   controller_state (cs w1) = CONTROLLER_STARTUP /\
   controller_state (cs w2) = CONTROLLER_READY).
Proof.
  cbv zeta.
  set (w0 := snd (controller_init P w)).
  assert (Hst0 : controller_state (cs w0) = CONTROLLER_NOT_CONNECTED) by reflexivity.
  assert (Hext0 : ext w0 = ext w) by reflexivity.
  assert (Hlog0 : log w0 = log w) by reflexivity.
  set (w1 := snd (_command_dispatch P H w0)).
  assert (Hst1 : controller_state (cs w1) = CONTROLLER_NOT_CONNECTED \/
                 controller_state (cs w1) = CONTROLLER_STARTUP).
  { subst w1. destruct (H SerialUSB_isConnected (ext w0)) as [b1 e1] eqn:Hc1.
    destruct (H SerialUSB_isConnected e1) as [b2 e2] eqn:Hc2.
    destruct b1, b2.
    - rewrite (dispatch_connect P H w0 Hst0 Hc1 Hc2), execute_line_state.
      right; reflexivity.
    - left. unfold _command_dispatch. mstep. rewrite Hc1. cbn [fst snd negb].
      mstep. rewrite Hst0. mstep. rewrite Hc2. cbn [fst snd negb]. mstep.
      exact Hst0.
    - right. unfold _command_dispatch. mstep. rewrite Hc1. cbn [fst snd negb].
      mstep. rewrite Hc2. cbn [fst snd negb]. mstep.
      rewrite execute_line_state. reflexivity.
    - rewrite (dispatch_disconnected P H w0 Hc1 Hc2). left; reflexivity. }
  split; [destruct Hst1 as [-> | ->]; discriminate |]. split.
  - destruct (read_line_only_when_ready P H w0) as (l1 & Hl1 & Hle1 & Hone1).
    destruct (read_line_only_when_ready P H w1) as (l2 & Hl2 & Hle2 & Hone2).
    exists (l1 ++ l2). split.
    + fold w1 in Hl1. rewrite Hl2, Hl1, Hlog0, app_assoc. reflexivity.
    + rewrite count_app.
      assert (count is_read_line l1 = 0).
      { destruct (count is_read_line l1) as [| [| n]]; [reflexivity | | lia].
        destruct (Hone1 eq_refl) as [Hr _]. rewrite Hst0 in Hr. discriminate. }
      assert (count is_read_line l2 = 0).
      { destruct (count is_read_line l2) as [| [| n]]; [reflexivity | | lia].
        destruct (Hone2 eq_refl) as [Hr _].
        destruct Hst1 as [Hs | Hs]; rewrite Hs in Hr; discriminate. }
      lia.
  - intros Hr1 Hr2 Hr3.
    assert (Hw1 : controller_state (cs w1) = CONTROLLER_STARTUP).
    { subst w1. destruct (H SerialUSB_isConnected (ext w0)) as [b1 e1] eqn:Hc1.
      rewrite Hext0 in Hc1. rewrite Hc1 in Hr1, Hr2. cbn [fst snd] in Hr1, Hr2.
      destruct (H SerialUSB_isConnected e1) as [b2 e2] eqn:Hc2.
      cbn [fst] in Hr2. subst b1 b2. rewrite <- Hext0 in Hc1.
      rewrite (dispatch_connect P H w0 Hst0 Hc1 Hc2), execute_line_state.
      reflexivity. }
    split; [exact Hw1 |].
    destruct (H SerialUSB_isConnected (ext w1)) as [b3 e3] eqn:Hc3.
    cbn [fst] in Hr3. subst b3.
    rewrite (dispatch_startup P H w1 Hw1 Hc3), execute_line_state. reflexivity.
Qed.

(* ===================================================================== *)
(** ** Further properties: routing by the first byte *)

(** X9: a complete line whose first byte is h or H is answered with the
    help screen: the response mode becomes text whatever it was,
    help_general is called, and the response emitter is called with
    STAT_OK and the input buffer itself (the whole line, not the saved
    copy).  No parser is called and the line stays in the input buffer. *)
Theorem help_line_routing (P : platform) (E : Type) (H : handler E)
    (w : world E) (e1 e2 : E) (b : buffer) (n : nat) :
  controller_state (cs w) = CONTROLLER_READY ->
  H SerialUSB_isConnected (ext w) = (true, e1) ->
  H (read_line (in_buf (cs w)) (linelen (cs w)) (INPUT_BUFFER_LEN P)) e1
  = ((STAT_OK, b, n), e2) ->
  toupper (hd NUL b) = "H"%char ->
  let w' := snd (_command_dispatch P H w) in
  log w' = log w ++
           [SerialUSB_isConnected;
            read_line (in_buf (cs w)) (linelen (cs w)) (INPUT_BUFFER_LEN P);
            help_general; text_response STAT_OK b] /\
  comm_mode w' = TEXT_MODE /\
  in_buf (cs w') = b /\
  linelen (cs w') = 0.
Proof.
  intros Hst Hconn Hread Hfirst. cbv zeta.
  rewrite (dispatch_ready_line P H w Hst Hconn Hread).
  unfold execute_line, save_and_clear, protocol_switch. mstep. rewrite Hfirst.
  change (Ascii.eqb "H"%char NUL) with false.
  change (Ascii.eqb "H"%char "H"%char) with true. cbv iota. mstep.
  rewrite <- !app_assoc. repeat split.
Qed.

(** X10: a complete line whose first byte is a dollar sign or a question
    mark goes to the text parser: the response mode becomes text whatever
    it was, text_parser is called with the line, and the response emitter
    is then called with the status the parser returned and the saved
    line.  Neither the JSON parser nor the G-code parser is called. *)
Theorem text_config_line_routing (P : platform) (E : Type) (H : handler E)
    (w : world E) (e1 e2 : E) (b : buffer) (n : nat) :
  controller_state (cs w) = CONTROLLER_READY ->
  H SerialUSB_isConnected (ext w) = (true, e1) ->
  H (read_line (in_buf (cs w)) (linelen (cs w)) (INPUT_BUFFER_LEN P)) e1
  = ((STAT_OK, b, n), e2) ->
  toupper (hd NUL b) = "$"%char \/ toupper (hd NUL b) = "?"%char ->
  let w' := snd (_command_dispatch P H w) in
  let saved := strncpy (saved_buf (cs w)) b (SAVED_BUFFER_LEN P - 1) in
  let parsed := H (text_parser b) e2 in
  log w' = log w ++
           [SerialUSB_isConnected;
            read_line (in_buf (cs w)) (linelen (cs w)) (INPUT_BUFFER_LEN P);
            text_parser b; text_response (fst (fst parsed)) saved] /\
  comm_mode w' = TEXT_MODE /\
  in_buf (cs w') = snd (fst parsed) /\
  linelen (cs w') = 0.
Proof.
  intros Hst Hconn Hread Hfirst. cbv zeta.
  rewrite (dispatch_ready_line P H w Hst Hconn Hread).
  unfold execute_line, save_and_clear, protocol_switch. mstep.
  destruct Hfirst as [Hfirst | Hfirst]; rewrite Hfirst.
  - change (Ascii.eqb "$"%char NUL) with false.
    change (Ascii.eqb "$"%char "H"%char) with false.
    change (Ascii.eqb "$"%char "$"%char) with true. cbn [orb]. cbv iota. mstep.
    rewrite <- !app_assoc. repeat split.
  - change (Ascii.eqb "?"%char NUL) with false.
    change (Ascii.eqb "?"%char "H"%char) with false.
    change (Ascii.eqb "?"%char "$"%char) with false.
    change (Ascii.eqb "?"%char "?"%char) with true. cbn [orb]. cbv iota. mstep.
    rewrite <- !app_assoc. repeat split.
Qed.

(** X11: a complete line whose first byte is an opening brace goes to the
    JSON parser as it is, unwrapped, and the response mode becomes JSON
    whatever it was.  The response emitter is not called: only the parser
    call is added to the log. *)
Theorem json_line_routing (P : platform) (E : Type) (H : handler E)
    (w : world E) (e1 e2 : E) (b : buffer) (n : nat) :
  controller_state (cs w) = CONTROLLER_READY ->
  H SerialUSB_isConnected (ext w) = (true, e1) ->
  H (read_line (in_buf (cs w)) (linelen (cs w)) (INPUT_BUFFER_LEN P)) e1
  = ((STAT_OK, b, n), e2) ->
  toupper (hd NUL b) = "{"%char ->
  let w' := snd (_command_dispatch P H w) in
  log w' = log w ++
           [SerialUSB_isConnected;
            read_line (in_buf (cs w)) (linelen (cs w)) (INPUT_BUFFER_LEN P);
            json_parser b] /\
  comm_mode w' = JSON_MODE /\
  in_buf (cs w') = fst (H (json_parser b) e2) /\
  out_buf (cs w') = out_buf (cs w) /\
  linelen (cs w') = 0.
Proof.
  intros Hst Hconn Hread Hfirst. cbv zeta.
  rewrite (dispatch_ready_line P H w Hst Hconn Hread).
  unfold execute_line, save_and_clear, protocol_switch. mstep. rewrite Hfirst.
  change (Ascii.eqb "{"%char NUL) with false.
  change (Ascii.eqb "{"%char "H"%char) with false.
  change (Ascii.eqb "{"%char "$"%char) with false.
  change (Ascii.eqb "{"%char "?"%char) with false.
  change (Ascii.eqb "{"%char "{"%char) with true. cbn [orb]. cbv iota. mstep.
  rewrite <- !app_assoc. repeat split.
Qed.

(** X12: an empty line while the response mode is JSON is swallowed: no
    call follows read_line, so nothing is echoed.  The cursor is cleared,
    the saved buffer is overwritten with the empty line, and the mode
    stays JSON. *)
Theorem empty_line_silent_in_json_mode (P : platform) (E : Type)
    (H : handler E) (w : world E) (e1 e2 : E) (b : buffer) (n : nat) :
  controller_state (cs w) = CONTROLLER_READY ->
  comm_mode w = JSON_MODE ->
  H SerialUSB_isConnected (ext w) = (true, e1) ->
  H (read_line (in_buf (cs w)) (linelen (cs w)) (INPUT_BUFFER_LEN P)) e1
  = ((STAT_OK, b, n), e2) ->
  hd NUL b = NUL ->
  1 < SAVED_BUFFER_LEN P ->
  let w' := snd (_command_dispatch P H w) in
  log w' = log w ++
           [SerialUSB_isConnected;
            read_line (in_buf (cs w)) (linelen (cs w)) (INPUT_BUFFER_LEN P)] /\
  ext w' = e2 /\
  comm_mode w' = JSON_MODE /\
  linelen (cs w') = 0 /\
  cstr (saved_buf (cs w')) = [].
Proof.
  intros Hst Hmode Hconn Hread Hhd Hsaved. cbv zeta.
  rewrite (dispatch_ready_line P H w Hst Hconn Hread).
  unfold execute_line, save_and_clear, protocol_switch. mstep. rewrite Hhd.
  change (Ascii.eqb (toupper NUL) NUL) with true. cbv iota. mstep.
  rewrite Hmode. cbn [comm_mode_eqb negb]. mstep.
  repeat split; try assumption.
  apply cstr_strncpy_empty; [exact Hhd | lia].
Qed.

(** X13: the response mode is sticky.  A poll in Ready state that gets no
    complete line, an empty line or a G-code line leaves the response mode
    as it was. *)
Theorem response_mode_is_sticky (P : platform) (E : Type) (H : handler E)
    (w : world E) (e1 e2 : E) (st : stat_t) (b : buffer) (n : nat) :
  controller_state (cs w) = CONTROLLER_READY ->
  H SerialUSB_isConnected (ext w) = (true, e1) ->
  H (read_line (in_buf (cs w)) (linelen (cs w)) (INPUT_BUFFER_LEN P)) e1
  = ((st, b, n), e2) ->
  st <> STAT_OK \/ hd NUL b = NUL \/ is_gcode_first (hd NUL b) ->
  comm_mode (snd (_command_dispatch P H w)) = comm_mode w.
Proof.
  intros Hst Hconn Hread Hcase.
  destruct (stat_eqb st STAT_OK) eqn:Hok.
  - apply stat_eqb_eq in Hok. subst st.
    rewrite (dispatch_ready_line P H w Hst Hconn Hread).
    destruct Hcase as [Hne | [Hhd | Hg]]; [congruence | |].
    + unfold execute_line, save_and_clear, protocol_switch. mstep. rewrite Hhd.
      change (Ascii.eqb (toupper NUL) NUL) with true. cbv iota. mstep.
      branch; mstep; reflexivity.
    + destruct (comm_mode w) eqn:Hm;
        [rewrite execute_line_gcode_text | rewrite execute_line_gcode_json];
        first [reflexivity | exact Hg | cbn [comm_mode]; congruence].
  - apply stat_eqb_neq in Hok.
    rewrite (dispatch_ready_no_line P H w Hst Hconn Hread Hok). reflexivity.
Qed.

(* ===================================================================== *)
(** ** Further properties: the saved line *)

Lemma skipn_last (l : list ascii) (n : nat) (d : ascii) :
  List.length l = S n -> skipn n l = [nth n l d].
Proof.
  revert l. induction n as [| n IH]; intros [| c l] Hlen; try discriminate.
  - destruct l; [reflexivity | discriminate].
  - simpl in *. apply IH. lia.
Qed.

Lemma strncpy_keeps_last (dst src : buffer) (n : nat) (d : ascii) :
  List.length dst = S n ->
  List.length (strncpy dst src n) = S n /\
  nth n (strncpy dst src n) d = nth n dst d.
Proof.
  intros Hlen. split.
  - rewrite length_strncpy. lia.
  - unfold strncpy, store. rewrite length_firstn_pad.
    rewrite app_nth2 by (rewrite length_firstn_pad; lia).
    rewrite length_firstn_pad, Nat.sub_diag, (skipn_last dst d Hlen).
    reflexivity.
Qed.

Lemma cstr_strncpy_cut (dst src : buffer) (n : nat) :
  List.length dst = S n -> nth n dst "x"%char = NUL ->
  cstr (strncpy dst src n) = firstn n (cstr src).
Proof.
  intros Hlen Hlast.
  destruct (Nat.lt_ge_cases (strlen src) n) as [Hlt | Hge].
  - rewrite cstr_strncpy_short by exact Hlt.
    symmetry. apply firstn_all2. unfold strlen in Hlt. lia.
  - unfold strlen in Hge. unfold strncpy, store.
    rewrite length_firstn_pad, (skipn_last dst "x"%char Hlen), Hlast.
    rewrite firstn_app. replace (n - List.length (cstr src)) with 0 by lia.
    rewrite firstn_O, app_nil_r, cstr_app.
    + rewrite cstr_nul_cons. apply app_nil_r.
    + pose proof (cstr_no_nul src) as Hall.
      rewrite <- (firstn_skipn n (cstr src)) in Hall.
      apply Forall_app in Hall. apply Hall.
Qed.

Lemma task_is_dispatch (t : task) :
  t = T_command_dispatch \/ t <> T_command_dispatch.
Proof. destruct t; (left; reflexivity) || (right; discriminate). Qed.

Section SavedLine.

Variable P : platform.
Variable E : Type.
Variable H : handler E.

Lemma strncpy_saved_terminated (w w' : world E) (src : buffer) :
  0 < SAVED_BUFFER_LEN P ->
  saved_buf_terminated P w ->
  saved_buf (cs w') = strncpy (saved_buf (cs w)) src (SAVED_BUFFER_LEN P - 1) ->
  saved_buf_terminated P w'.
Proof.
  unfold saved_buf_terminated. intros Hpos [Hlen Hlast] ->.
  assert (Hlen' : List.length (saved_buf (cs w)) = S (SAVED_BUFFER_LEN P - 1)) by lia.
  destruct (strncpy_keeps_last (saved_buf (cs w)) src "x"%char Hlen') as [Hl Hn].
  split; [lia | rewrite Hn; exact Hlast].
Qed.

Lemma command_dispatch_saved_buf (w : world E) :
  saved_buf (cs (snd (_command_dispatch P H w))) = saved_buf (cs w) \/
  exists src,
    saved_buf (cs (snd (_command_dispatch P H w))) =
    strncpy (saved_buf (cs w)) src (SAVED_BUFFER_LEN P - 1).
Proof.
  unfold _command_dispatch. mstep.
  destruct (fst (H SerialUSB_isConnected (ext w))); cbn [negb]; mstep;
    [destruct (controller_state (cs w)); mstep |];
    repeat (branch; mstep);
    first [ left; reflexivity
          | right; rewrite execute_line_saved_buf; eexists; reflexivity ].
Qed.

Lemma run_task_saved_terminated (t : task) (w : world E) :
  0 < SAVED_BUFFER_LEN P ->
  saved_buf_terminated P w ->
  saved_buf_terminated P (snd (run_task P H t w)).
Proof.
  intros Hpos Hterm.
  destruct (task_is_dispatch t) as [-> | Hne].
  - cbn [run_task].
    destruct (command_dispatch_saved_buf w) as [Heq | [src Heq]].
    + unfold saved_buf_terminated in *. rewrite Heq. exact Hterm.
    + exact (@strncpy_saved_terminated w _ src Hpos Hterm Heq).
  - destruct (run_task_frame P H w Hne) as [Hfr _].
    unfold line_state in Hfr. unfold saved_buf_terminated in *.
    inversion Hfr as [[Hi Ho Hs Hl Hc Hm]]. rewrite Hs. exact Hterm.
Qed.

End SavedLine.

(** X14: the saved buffer stays a terminated string.  If it has its
    declared size and its last byte is NUL, this still holds after any
    number of iterations of the loop in which the wrapping of line 232
    stays within the input buffer (no array handed to the JSON parser is
    longer than INPUT_BUFFER_LEN, and the scratch buffer takes the copy of
    line 231): the copy at line 202 is bounded by SAVED_BUFFER_LEN-1 and
    nothing else writes the buffer. *)
Theorem saved_buf_stays_terminated (P : platform) (E : Type) (H : handler E)
    (ticks : nat) (w : world E) :
  0 < SAVED_BUFFER_LEN P ->
  saved_buf_terminated P w ->
  INPUT_BUFFER_LEN P - 8 <= List.length (out_buf (cs w)) ->
  no_overrun P (log (fst (controller_run P H ticks w))) ->
  saved_buf_terminated P (fst (controller_run P H ticks w)).
Proof.
  intros Hpos Hterm0 _ _. revert Hterm0.
  assert (Hsweep : forall tbl (w0 : world E),
             saved_buf_terminated P w0 ->
             saved_buf_terminated P (fst (sweep_table P H tbl w0))).
  { induction tbl as [| t rest IH]; intros w0 Hterm; cbn [sweep_table].
    - exact Hterm.
    - rewrite DISPATCH_run.
      pose proof (run_task_saved_terminated H t Hpos Hterm) as Hstep.
      destruct (stat_eqb _ STAT_EAGAIN); cbn [fst]; [exact Hstep |].
      apply IH. exact Hstep. }
  revert w. induction ticks as [| n IH]; intros w Hterm; cbn [controller_run].
  - exact Hterm.
  - pose proof (Hsweep dispatch_table w Hterm) as Hone.
    rewrite <- HSM_is_sweep_table in Hone.
    destruct (_controller_HSM P H w) as [w1 tr1]. cbn [fst] in Hone.
    specialize (IH w1 Hone).
    destruct (controller_run P H n w1) as [w2 trs]. exact IH.
Qed.

(** X15: whatever its first byte, a line dispatched in Ready state is
    saved cut to SAVED_BUFFER_LEN-1 bytes, in every poll in which the
    wrapping of lines 231-232 stays within the arrays (the poll is not a
    JSON-mode G-code poll, or the wrapped line fits): with the saved buffer
    of its declared size and ending in NUL, the saved string after the
    poll is the first SAVED_BUFFER_LEN-1 bytes of the line. *)
Theorem saved_line_is_cut_copy (P : platform) (E : Type) (H : handler E)
    (w : world E) (e1 e2 : E) (b : buffer) (n : nat) :
  0 < SAVED_BUFFER_LEN P ->
  saved_buf_terminated P w ->
  controller_state (cs w) = CONTROLLER_READY ->
  H SerialUSB_isConnected (ext w) = (true, e1) ->
  H (read_line (in_buf (cs w)) (linelen (cs w)) (INPUT_BUFFER_LEN P)) e1
  = ((STAT_OK, b, n), e2) ->
  (comm_mode w = JSON_MODE -> is_gcode_first (hd NUL b) -> wrap_fits P w b) ->
  cstr (saved_buf (cs (snd (_command_dispatch P H w)))) =
  firstn (SAVED_BUFFER_LEN P - 1) (cstr b).
Proof.
  intros Hpos [Hlen Hlast] Hst Hconn Hread _.
  rewrite (dispatch_ready_line P H w Hst Hconn Hread).
  rewrite execute_line_saved_buf.
  cbn [cs saved_buf in_buf with_linelen with_in_buf].
  apply cstr_strncpy_cut; [lia | exact Hlast].
Qed.

(* ===================================================================== *)
(** ** The further properties at work on the simulated board *)

(** The heartbeat with the clock past the deadline: one toggle, and the
    deadline moves to the second reading plus 1000. *)
Lemma normal_idler_heartbeat_late :
  let w' := snd (_normal_idler Sim.plat Sim.run Examples.late_world) in
  (led_timer (cs Examples.late_world)
   < fst (Sim.run SysTickTimer_getValue (ext Examples.late_world)))%Z /\
  count is_toggle (log w') = 1 /\
  led_timer (cs w') = 1006%Z.
Proof.
  cbv zeta.
  assert (Hlate : (led_timer (cs Examples.late_world)
                   < fst (Sim.run SysTickTimer_getValue (ext Examples.late_world)))%Z)
    by (vm_compute; reflexivity).
  destruct (normal_idler_heartbeat Sim.plat Sim.run Examples.late_world)
    as (_ & _ & Hfire & _).
  destruct (Hfire Hlate) as (Hlog & _ & _ & _ & Hled & _).
  split; [exact Hlate |]. split.
  - rewrite Hlog. reflexivity.
  - rewrite Hled. reflexivity.
Defined.

(** The alarm idler with the clock past the deadline: one toggle, and the
    deadline moves to a fresh reading plus 100. *)
Lemma alarm_idler_effects_late :
  let w' := snd (_alarm_idler Sim.plat Sim.run Examples.late_alarmed_world) in
  count is_toggle (log w') = 1 /\
  led_timer (cs w') = 106%Z /\
  line_state w' = line_state Examples.late_alarmed_world.
Proof.
  cbv zeta.
  destruct (alarm_idler_effects Sim.plat Sim.run Examples.late_alarmed_world)
    as (Hframe & _ & Hfire & _).
  destruct Hfire as (Hlog & _ & _ & _ & Hled);
    [reflexivity | vm_compute; reflexivity |].
  split; [rewrite Hlog; reflexivity |]. split; [rewrite Hled; reflexivity |].
  exact Hframe.
Defined.

(** The planner is down to two free buffers: the sweep stops at the gate,
    and the line that is waiting is still waiting afterwards. *)
Lemma blocked_sweep_keeps_line_at_gate :
  let w' := fst (_controller_HSM Sim.plat Sim.run Examples.gate_closed_world) in
  returned T_sync_to_planner STAT_EAGAIN
    (snd (_controller_HSM Sim.plat Sim.run Examples.gate_closed_world)) /\
  line_state w' = line_state Examples.gate_closed_world /\
  count is_read_line (log w') = 0 /\
  Sim.pending (ext w') = [line_g1].
Proof.
  cbv zeta.
  assert (Hret : returned T_sync_to_planner STAT_EAGAIN
                   (snd (_controller_HSM Sim.plat Sim.run Examples.gate_closed_world))).
  { vm_compute. do 11 right. left. reflexivity. }
  destruct (@blocked_sweep_keeps_line Sim.plat _ Sim.run
              Examples.gate_closed_world T_sync_to_planner 11
              eq_refl ltac:(lia) Hret) as (_ & Hframe & _).
  split; [exact Hret |]. split; [exact Hframe |].
  split; vm_compute; reflexivity.
Defined.

(** Plugging in a freshly booted board. *)
Lemma connect_announces_once_on_boot :
  let w' := snd (_command_dispatch Sim.plat Sim.run Examples.idle_world) in
  controller_state (cs Examples.idle_world) = CONTROLLER_NOT_CONNECTED /\
  controller_state (cs w') = CONTROLLER_STARTUP /\
  count is_flush (log w') = 1 /\
  count is_ready_message (log w') = 1.
Proof.
  cbv zeta.
  destruct (@connect_announces_once Sim.plat _ Sim.run Examples.idle_world
              (ext Examples.idle_world) (ext Examples.idle_world)
              eq_refl eq_refl eq_refl) as (Hst & l & Hlog & _ & Hf & Hr).
  split; [reflexivity |]. split; [exact Hst |].
  rewrite Hlog. split; [exact Hf | exact Hr].
Defined.

(** Pulling the cable with three bytes of a line in the buffer. *)
Lemma disconnected_poll_is_inert_unplugged :
  let w' := snd (_command_dispatch Sim.plat Sim.run Examples.unplugged_ready) in
  controller_state (cs Examples.unplugged_ready) = CONTROLLER_READY /\
  controller_state (cs w') = CONTROLLER_NOT_CONNECTED /\
  cstr (in_buf (cs w')) = list_ascii_of_string "g1x" /\
  linelen (cs w') = 3 /\
  comm_mode w' = JSON_MODE.
Proof.
  cbv zeta.
  destruct (@disconnected_poll_is_inert Sim.plat _ Sim.run
              Examples.unplugged_ready
              (ext Examples.unplugged_ready) (ext Examples.unplugged_ready)
              eq_refl eq_refl)
    as (_ & Hst & _ & Hin & Hlen & _ & _ & Hmode).
  split; [reflexivity |]. split; [exact Hst |].
  rewrite Hin, Hlen, Hmode. repeat split.
Defined.

(** A freshly booted board, plugged in: Startup after one poll, Ready
    after two, and no line read so far. *)
Lemma handshake_takes_two_polls_on_boot :
  let w0 := snd (controller_init Sim.plat Examples.idle_world) in
  let w1 := snd (_command_dispatch Sim.plat Sim.run w0) in
  let w2 := snd (_command_dispatch Sim.plat Sim.run w1) in
  controller_state (cs w1) = CONTROLLER_STARTUP /\
  controller_state (cs w2) = CONTROLLER_READY.
Proof.
  cbv zeta.
  apply (proj2 (proj2 (handshake_takes_two_polls Sim.plat Sim.run
                          Examples.idle_world))); reflexivity.
Defined.

(** The line help, in lower case, while the mode is JSON. *)
Lemma help_line_routing_lower_case :
  let w := Examples.ready JSON_MODE [list_ascii_of_string "help"] in
  let w' := snd (_command_dispatch Sim.plat Sim.run w) in
  toupper "h"%char = "H"%char /\
  comm_mode w' = TEXT_MODE /\
  List.length (log w') = 4 /\
  cstr (in_buf (cs w')) = list_ascii_of_string "help".
Proof.
  cbv zeta.
  destruct (@help_line_routing Sim.plat _ Sim.run
              (Examples.ready JSON_MODE [list_ascii_of_string "help"])
              (ext (Examples.ready JSON_MODE [list_ascii_of_string "help"]))
              (Sim.board0 [true] [])
              (store (repeat NUL 255) (list_ascii_of_string "help" ++ [NUL])) 4
              eq_refl eq_refl eq_refl eq_refl) as (Hlog & Hmode & Hin & _).
  split; [reflexivity |]. split; [exact Hmode |].
  rewrite Hlog, Hin. split; reflexivity.
Defined.

(** The line $x while the mode is JSON. *)
Lemma text_config_line_routing_dollar_x :
  let w := Examples.ready JSON_MODE [list_ascii_of_string "$x"] in
  let w' := snd (_command_dispatch Sim.plat Sim.run w) in
  comm_mode w' = TEXT_MODE /\
  List.length (log w') = 4 /\
  count line_call (log w') = 2.
Proof.
  cbv zeta.
  destruct (@text_config_line_routing Sim.plat _ Sim.run
              (Examples.ready JSON_MODE [list_ascii_of_string "$x"])
              (ext (Examples.ready JSON_MODE [list_ascii_of_string "$x"]))
              (Sim.board0 [true] [])
              (store (repeat NUL 255) (list_ascii_of_string "$x" ++ [NUL])) 2
              eq_refl eq_refl eq_refl (or_introl eq_refl))
    as (Hlog & Hmode & _).
  split; [exact Hmode |]. rewrite Hlog. split; reflexivity.
Defined.

(** The line {} while the mode is text. *)
Lemma json_line_routing_braces :
  let w := Examples.ready TEXT_MODE [list_ascii_of_string "{}"] in
  let w' := snd (_command_dispatch Sim.plat Sim.run w) in
  comm_mode w' = JSON_MODE /\
  json_parser_args (log w') = [list_ascii_of_string "{}"] /\
  count line_call (log w') = 1.
Proof.
  cbv zeta.
  destruct (@json_line_routing Sim.plat _ Sim.run
              (Examples.ready TEXT_MODE [list_ascii_of_string "{}"])
              (ext (Examples.ready TEXT_MODE [list_ascii_of_string "{}"]))
              (Sim.board0 [true] [])
              (store (repeat NUL 255) (list_ascii_of_string "{}" ++ [NUL])) 2
              eq_refl eq_refl eq_refl eq_refl)
    as (Hlog & Hmode & _).
  split; [exact Hmode |]. rewrite Hlog. split; reflexivity.
Defined.

(** An empty line while the mode is JSON. *)
Lemma empty_line_silent_in_json_mode_run :
  let w := Examples.ready JSON_MODE [[]] in
  let w' := snd (_command_dispatch Sim.plat Sim.run w) in
  List.length (log w') = 2 /\ count line_call (log w') = 0 /\
  comm_mode w' = JSON_MODE.
Proof.
  cbv zeta.
  destruct (@empty_line_silent_in_json_mode Sim.plat _ Sim.run
              (Examples.ready JSON_MODE [[]])
              (ext (Examples.ready JSON_MODE [[]]))
              (Sim.board0 [true] [])
              (store (repeat NUL 255) [NUL]) 0
              eq_refl eq_refl eq_refl eq_refl eq_refl ltac:(vm_compute; lia))
    as (Hlog & _ & Hmode & _).
  rewrite Hlog. split; [reflexivity |]. split; [reflexivity | exact Hmode].
Defined.

(** A G-code line while the mode is JSON: the mode stays JSON. *)
Lemma response_mode_is_sticky_g1 :
  is_gcode_first "g"%char /\
  comm_mode (snd (_command_dispatch Sim.plat Sim.run
                    (Examples.ready JSON_MODE [line_g1]))) = JSON_MODE.
Proof.
  assert (Hfirst : is_gcode_first "g"%char).
  { unfold is_gcode_first. vm_compute. repeat split; discriminate. }
  split; [exact Hfirst |].
  rewrite (@response_mode_is_sticky Sim.plat _ Sim.run
             (Examples.ready JSON_MODE [line_g1])
             (ext (Examples.ready JSON_MODE [line_g1]))
             (Sim.board0 [true] []) STAT_OK
             (store (repeat NUL 255) (line_g1 ++ [NUL])) 10
             eq_refl eq_refl eq_refl (or_intror (or_intror Hfirst))).
  reflexivity.
Defined.

(** Three iterations from boot in JSON mode with a G-code line waiting:
    the third wraps the line, within the 255 bytes of the input buffer. *)
Lemma saved_buf_stays_terminated_run :
  let w := Sim.boot JSON_MODE (Sim.board0 [true] ["g1f400x100"%string]) in
  let w' := fst (controller_run Sim.plat Sim.run 3 w) in
  saved_buf_terminated Sim.plat w /\
  no_overrun Sim.plat (log w') /\
  json_parser_args (log w') = [gc_wrap line_g1] /\
  saved_buf_terminated Sim.plat w'.
Proof.
  cbv zeta.
  assert (Hterm : saved_buf_terminated Sim.plat
                    (Sim.boot JSON_MODE (Sim.board0 [true] ["g1f400x100"%string])))
    by (split; reflexivity).
  assert (Hfits : no_overrun Sim.plat
                    (log (fst (controller_run Sim.plat Sim.run 3
                                 (Sim.boot JSON_MODE
                                    (Sim.board0 [true] ["g1f400x100"%string])))))).
  { unfold no_overrun. vm_compute. reflexivity. }
  split; [exact Hterm |]. split; [exact Hfits |].
  split; [vm_compute; reflexivity |].
  apply saved_buf_stays_terminated;
    [vm_compute; lia | exact Hterm | vm_compute; lia | exact Hfits].
Defined.

(** A 150-byte G-code line in JSON mode with a 100-byte saved buffer: the
    wrapped line fits the input buffer, and 99 bytes are saved. *)
Lemma saved_line_is_cut_copy_150 :
  let w := Examples.ready JSON_MODE [long_line 150] in
  let w' := snd (_command_dispatch Sim.plat Sim.run w) in
  saved_buf_terminated Sim.plat w /\
  wrap_fits Sim.plat w (store (repeat NUL 255) (long_line 150 ++ [NUL])) /\
  cstr (saved_buf (cs w')) = firstn 99 (long_line 150) /\
  List.length (cstr (saved_buf (cs w'))) = 99.
Proof.
  cbv zeta.
  assert (Hterm : saved_buf_terminated Sim.plat
                    (Examples.ready JSON_MODE [long_line 150]))
    by (split; reflexivity).
  assert (Hfits : wrap_fits Sim.plat (Examples.ready JSON_MODE [long_line 150])
                    (store (repeat NUL 255) (long_line 150 ++ [NUL]))).
  { unfold wrap_fits. vm_compute. lia. }
  pose proof (@saved_line_is_cut_copy Sim.plat _ Sim.run
                (Examples.ready JSON_MODE [long_line 150])
                (ext (Examples.ready JSON_MODE [long_line 150]))
                (Sim.board0 [true] [])
                (store (repeat NUL 255) (long_line 150 ++ [NUL])) 150
                ltac:(vm_compute; lia) Hterm eq_refl eq_refl eq_refl
                (fun _ _ => Hfits)) as Hcut.
  split; [exact Hterm |]. split; [exact Hfits |].
  rewrite Hcut. split; vm_compute; reflexivity.
Defined.

(* ===================================================================== *)
(** ** The order of a sweep, on the log of calls *)

Section SweepLog.

Variable P : platform.
Variable E : Type.
Variable H : handler E.

(** The first call of the command dispatcher is the connection query, and
    every call after it is one of the dispatcher's. *)
Lemma command_dispatch_first_call (w : world E) :
  exists d, log (snd (_command_dispatch P H w)) =
            log w ++ SerialUSB_isConnected :: d /\
            forallb dispatcher_call d = true.
Proof.
  assert (Hline : forall (w1 : world E) pre,
             log w1 = log w ++ SerialUSB_isConnected :: pre ->
             forallb dispatcher_call pre = true ->
             exists d, log (snd (execute_line P H w1)) =
                       log w ++ SerialUSB_isConnected :: d /\
                       forallb dispatcher_call d = true).
  { intros w1 pre Hpre Hall.
    destruct (execute_line_calls P H w1) as (l & Hl & Hlc & _).
    exists (pre ++ l). split.
    - rewrite Hl, Hpre, <- app_assoc. reflexivity.
    - rewrite forallb_app, Hall.
      rewrite (@forallb_weaken line_call dispatcher_call l
                 line_call_dispatcher_call Hlc).
      reflexivity. }
  unfold _command_dispatch. mstep.
  destruct (fst (H SerialUSB_isConnected (ext w))); cbn [negb]; mstep;
    [destruct (controller_state (cs w)); mstep |];
    repeat (branch; mstep);
    first [ match goal with
            | |- context [execute_line P H ?W] =>
                apply (Hline W _
                         ltac:(cbn [log]; rewrite <- ?app_assoc; reflexivity)
                         ltac:(reflexivity))
            end
          | rewrite <- ?app_assoc; eexists; split; reflexivity ].
Qed.

(** What each entry adds to the log in one poll. *)
Lemma run_task_entry_log (t : task) (w : world E) :
  exists l, log (snd (run_task P H t w)) = log w ++ l /\
            entry_log t (fst (run_task P H t w)) l.
Proof.
  destruct t; cbn [run_task entry_log];
    try (eexists; split; [rewrite invoke_run; reflexivity | reflexivity]).
  - unfold _alarm_idler. mstep. repeat (branch; mstep); rewrite <- ?app_assoc;
      eexists; (split; [reflexivity |]); cbn [app]; intuition reflexivity.
  - exists []. split; [symmetry; apply app_nil_r | split; reflexivity].
  - unfold _sync_to_planner. mstep. branch; mstep; eexists; split; reflexivity.
  - rewrite command_dispatch_status.
    destruct (command_dispatch_first_call w) as (d & Hd & Hall).
    exists (SerialUSB_isConnected :: d). split; [exact Hd |].
    split; [reflexivity |]. exists d. split; [reflexivity | exact Hall].
  - unfold _normal_idler. mstep. repeat (branch; mstep); rewrite <- ?app_assoc;
      eexists; (split; [reflexivity |]); cbn [app]; intuition reflexivity.
Qed.

(** The log of a sweep is made of the logs of the entries it invoked, one
    after the other in the order of the trace. *)
Lemma sweep_table_entry_logs (tbl : list task) : forall w : world E,
  exists ls,
    Forall2 (fun x l => entry_log (fst x) (snd x) l)
            (snd (sweep_table P H tbl w)) ls /\
    log (fst (sweep_table P H tbl w)) = log w ++ List.concat ls.
Proof.
  induction tbl as [| t rest IH]; intros w; cbn [sweep_table].
  - exists []. split; [constructor | symmetry; apply app_nil_r].
  - rewrite DISPATCH_run.
    destruct (run_task_entry_log t w) as (l & Hl & Hentry).
    destruct (stat_eqb (fst (run_task P H t w)) STAT_EAGAIN); cbn [fst snd].
    + exists [l]. split; [repeat constructor; exact Hentry |].
      cbn [List.concat]. rewrite app_nil_r. exact Hl.
    + destruct (IH (snd (run_task P H t w))) as (ls & Hall & Hlog).
      exists (l :: ls). split; [constructor; [exact Hentry | exact Hall] |].
      cbn [List.concat]. rewrite Hlog, Hl, app_assoc. reflexivity.
Qed.

End SweepLog.

(** C5: a sweep calls, in this order and with nothing in between, the
    hard-reset handler, the alarm idler, switch polling, the limit-switch
    handler, feedhold sequencing, hold planning, the motor power timer,
    the status report, the queue report, the arc continuation, the homing
    continuation, the planner backpressure gate, the command dispatcher
    and the normal idler.  What a sweep invokes is always an initial part
    of that list, and the log of calls it leaves is made of the calls of
    the entries invoked, entry after entry in that order.  When no entry
    returns STAT_EAGAIN every entry is invoked and the log is the ten
    callbacks, the alarm idler's state query and the gate's planner query
    in their places, then the dispatcher's calls starting with the
    connection query, then the idler's clock reading; the limit-switch
    handler calls nothing.  Taken by the items of the specification's
    ordering list these are its twelve items, 1 to 12 in order. *)
Theorem dispatch_order (P : platform) (E : Type) (H : handler E) (w : world E) :
  let order :=
    [ T_hw_hard_reset_handler; T_alarm_idler; T_poll_switches;
      T_limit_switch_handler; T_cm_feedhold_sequencing_callback;
      T_mp_plan_hold_callback; T_st_motor_power_callback;
      T_sr_status_report_callback; T_qr_queue_report_callback;
      T_cm_arc_callback; T_cm_homing_callback; T_sync_to_planner;
      T_command_dispatch; T_normal_idler ] in
  let tr := snd (_controller_HSM P H w) in
  let w' := fst (_controller_HSM P H w) in
  (exists n, map fst tr = firstn n order) /\
  (exists ls,
      Forall2 (fun x l => entry_log (fst x) (snd x) l) tr ls /\
      log w' = log w ++ List.concat ls) /\
  ((forall t r, returned t r tr -> r <> STAT_EAGAIN) ->
   map fst tr = order /\
   squeeze (map spec_item (map fst tr)) = seq 1 12 /\
   exists d i,
     log w' = log w ++
              [hw_hard_reset_handler; cm_get_machine_state; poll_switches;
               cm_feedhold_sequencing_callback; mp_plan_hold_callback;
               st_motor_power_callback; sr_status_report_callback;
               qr_queue_report_callback; cm_arc_callback; cm_homing_callback;
               mp_get_planner_buffers_available; SerialUSB_isConnected] ++
              d ++ SysTickTimer_getValue :: i /\
     forallb dispatcher_call d = true /\
     (i = [] \/ i = [SysTickTimer_getValue; IndicatorLed_toggle])).
Proof.
  cbv zeta.
  destruct (sweep_table_entry_logs P H dispatch_table w) as (ls & Hall & Hlog).
  rewrite <- HSM_is_sweep_table in Hall, Hlog.
  split; [apply (veto_trace_prefix (HSM_veto P H w)) |].
  split; [exists ls; split; assumption |].
  intros Hok.
  pose proof (veto_trace_full (HSM_veto P H w) Hok) as Hfull.
  split; [exact Hfull |]. split; [rewrite Hfull; reflexivity |].
  rewrite Hlog. clear Hlog.
  unfold returned in Hok.
  destruct (snd (_controller_HSM P H w)) as [| [t0 r0] tr]; [discriminate |].
  do 13 (destruct tr as [| [? ?] tr]; [discriminate |]).
  destruct tr; [| discriminate].
  cbn [map fst] in Hfull. unfold dispatch_table in Hfull.
  inversion Hfull; subst.
  repeat match goal with
         | Hf : Forall2 _ (_ :: _) _ |- _ =>
             inversion Hf; subst; clear Hf
         | Hf : Forall2 _ [] _ |- _ => inversion Hf; subst; clear Hf
         end.
  cbn [fst snd entry_log] in *.
  repeat match goal with
         | Hx : _ = [_] |- _ => rewrite Hx in *; clear Hx
         | Hx : _ /\ _ |- _ => destruct Hx
         | Hx : exists _, _ |- _ => destruct Hx
         end.
  destruct H3 as [[_ ->] | [Hs _]];
    [| exfalso; apply (Hok T_alarm_idler s); [simpl; tauto | exact Hs]].
  subst.
  destruct H1 as [-> | ->]; exists x; eexists;
    (split; [cbn [List.concat app]; reflexivity |]);
    (split; [assumption |]); [left | right]; reflexivity.
Qed.

(** An idle machine, freshly booted and plugged in: nothing blocks, the
    sweep runs the whole table, and the log shows every call in order. *)
Lemma dispatch_order_idle :
  let tr := snd (_controller_HSM Sim.plat Sim.run Examples.idle_world) in
  let w' := fst (_controller_HSM Sim.plat Sim.run Examples.idle_world) in
  (forall t r, returned t r tr -> r <> STAT_EAGAIN) /\
  List.length tr = 14 /\
  squeeze (map spec_item (map fst tr)) = seq 1 12 /\
  log w' =
  [hw_hard_reset_handler; cm_get_machine_state; poll_switches;
   cm_feedhold_sequencing_callback; mp_plan_hold_callback;
   st_motor_power_callback; sr_status_report_callback;
   qr_queue_report_callback; cm_arc_callback; cm_homing_callback;
   mp_get_planner_buffers_available;
   SerialUSB_isConnected; SerialUSB_isConnected; cm_request_queue_flush;
   rpt_print_system_ready_message;
   text_response STAT_OK (saved_buf (cs w'));
   SysTickTimer_getValue].
Proof.
  cbv zeta.
  assert (Hall : forall t r,
             returned t r (snd (_controller_HSM Sim.plat Sim.run Examples.idle_world)) ->
             r <> STAT_EAGAIN).
  { intros t r Hin. vm_compute in Hin.
    repeat (destruct Hin as [Hin | Hin]; [inversion Hin; discriminate |]).
    destruct Hin. }
  destruct (proj2 (proj2 (dispatch_order Sim.plat Sim.run Examples.idle_world))
              Hall) as (Hfull & Hitems & _).
  split; [exact Hall |]. split; [| split; [exact Hitems |]].
  - rewrite <- (length_map fst), Hfull. reflexivity.
  - vm_compute. reflexivity.
Defined.

